(** * FoodieBot: interest scoring and recommendation ranking

    A shallow embedding of the two backend services that carry the
    program's logic,

      - [backend/conversation_service.py]  (class [ConversationService])
      - [backend/recommendation_engine.py] (class [RecommendationEngine])

    followed by the properties of these services.

    Conventions of the embedding.
      - Python [str] is [string]; the text is taken to be ASCII, so that
        [str.lower] acts on the letters A to Z only.
      - Python [int] is [Z]; Python [float] is the kernel's binary64
        [float], whose operations round as CPython's do.
      - [None]-able JSON columns are [option (list string)], read through
        [or_nil] where the source writes [x or []]; the columns the
        services read without such a guard (name, category, description,
        price, the lists of a conversation) are taken to be set.
      - The database session is a record of the two catalogue queries the
        engine issues; the conversation row is passed explicitly.
      - A Python exception is a value: a function that can raise returns
        a [result], [Raised e] where the source raises [e]. *)

From Stdlib Require Import ZArith List String Ascii Bool Lia.
From Stdlib Require Import Floats DecimalString.
From Stdlib Require Import Permutation.
Import ListNotations.

Set Warnings "-inexact-float".

Open Scope string_scope.
Open Scope Z_scope.

(* ================================================================= *)
(** ** Python built-ins used by the services *)

Module Py.

(** [x or []] on a nullable list. *)
Definition or_nil {A : Type} (x : option (list A)) : list A :=
  match x with
  | Some l => l
  | None => []
  end.

(** [x or d] on a nullable integer: [None] and [0] are both falsy. *)
Definition or_int (x : option Z) (d : Z) : Z :=
  match x with
  | Some v => if v =? 0 then d else v
  | None => d
  end.

(** [s in l] for a list of strings. *)
Definition mem (s : string) (l : list string) : bool :=
  existsb (String.eqb s) l.

Definition lower_ascii (c : ascii) : ascii :=
  if (("A" <=? c) && (c <=? "Z"))%char
  then ascii_of_nat (nat_of_ascii c + 32)
  else c.

(** [s.lower()]. *)
Fixpoint lower (s : string) : string :=
  match s with
  | EmptyString => EmptyString
  | String c t => String (lower_ascii c) (lower t)
  end.

(** [needle in hay] for strings: substring containment. *)
Fixpoint contains (needle hay : string) : bool :=
  if prefix needle hay then true
  else match hay with
       | EmptyString => false
       | String _ t => contains needle t
       end.

(** [any(k in text for k in keywords)]; also the shape of every
    [for k in keywords: if k in text: found = True; break] loop. *)
Definition any_in (keywords : list string) (text : string) : bool :=
  existsb (fun k => contains k text) keywords.

(** The keywords of a list that occur in the text, in list order. *)
Definition matches_in (keywords : list string) (text : string) : list string :=
  filter (fun k => contains k text) keywords.

(** [dict.get(key, default)] on a dictionary kept in insertion order. *)
Fixpoint dict_get {V : Type} (d : list (string * V)) (key : string) (default : V) : V :=
  match d with
  | [] => default
  | (k, v) :: rest => if String.eqb k key then v else dict_get rest key default
  end.

(** The keys, in insertion order, whose keyword list has a hit in the
    text: [for key, kws in d.items(): for k in kws: if k in text: ...; break]. *)
Definition keys_hit (d : list (string * list string)) (text : string) : list string :=
  map fst (filter (fun kv => any_in (snd kv) text) d).

(** [for x in new: if x not in acc: acc.append(x)]. *)
Definition add_missing (acc new : list string) : list string :=
  fold_left (fun acc x => if mem x acc then acc else (acc ++ [x])%list) new acc.

(** [l.sort(key=key, reverse=True)]: descending and stable, equal keys
    keep their order; only [<] on the keys is used. *)
Fixpoint insert_desc {A : Type} (key : A -> float) (x : A) (l : list A) : list A :=
  match l with
  | [] => [x]
  | y :: rest =>
      if (key x <? key y)%float then y :: insert_desc key x rest
      else x :: y :: rest
  end.

Definition sort_desc {A : Type} (key : A -> float) (l : list A) : list A :=
  fold_right (insert_desc key) [] l.

(** [l[:limit]] with Python's reading of a negative bound. *)
Definition take {A : Type} (limit : Z) (l : list A) : list A :=
  if 0 <=? limit then firstn (Z.to_nat limit) l
  else firstn (List.length l - Z.to_nat (- limit)) l.

(** [str(n)] for an integer. *)
Definition str_of_Z (n : Z) : string := NilZero.string_of_int (Z.to_int n).

(** *** The money patterns

    Every regular expression of the two services has the shape
    [<literal>\$?(\d+)] or [\$(\d+)]: a literal, a dollar sign that is
    optional or required, and a greedy run of digits, which is group 1. *)

Record pattern := { literal : string; dollar_required : bool }.

Definition is_digit (c : ascii) : bool := (("0" <=? c) && (c <=? "9"))%char.

Fixpoint digit_run (s : string) : string :=
  match s with
  | EmptyString => EmptyString
  | String c t => if is_digit c then String c (digit_run t) else EmptyString
  end.

Fixpoint strip_literal (lit s : string) : option string :=
  match lit with
  | EmptyString => Some s
  | String a lit' =>
      match s with
      | EmptyString => None
      | String b s' => if Ascii.eqb a b then strip_literal lit' s' else None
      end
  end.

(** [re.match(p, s)]: group 1 of a match anchored at the start of [s].
    A dollar sign is taken whenever it is there: giving it back could
    not help, as the next character would have to be a digit. *)
Definition match_here (p : pattern) (s : string) : option string :=
  match strip_literal (literal p) s with
  | None => None
  | Some rest =>
      let after_dollar :=
        match rest with
        | String "$" t => Some t
        | _ => if dollar_required p then None else Some rest
        end in
      match after_dollar with
      | None => None
      | Some r =>
          match digit_run r with
          | EmptyString => None
          | d => Some d
          end
      end
  end.

(** [re.search(p, s)]: group 1 of the leftmost match. *)
Fixpoint re_search (p : pattern) (s : string) : option string :=
  match match_here p s with
  | Some d => Some d
  | None =>
      match s with
      | EmptyString => None
      | String _ t => re_search p t
      end
  end.

(** *** Numbers *)

Definition digit_value (c : ascii) : Z := Z.of_nat (nat_of_ascii c) - 48.

Fixpoint int_of_digits_from (acc : Z) (s : string) : Z :=
  match s with
  | EmptyString => acc
  | String c t => int_of_digits_from (10 * acc + digit_value c) t
  end.

Definition int_of_digits (s : string) : Z := int_of_digits_from 0 s.

(** The double nearest to an integer (ties to even). *)
Definition float_of_Z (z : Z) : float :=
  SF2Prim (binary_normalize prec emax z 0 false).

(** [float(s)] for a string of digits. *)
Definition float_of_digits (s : string) : float := float_of_Z (int_of_digits s).

(** [max(0, x)] on a float: [x] is kept only when [0 < x]. *)
Definition max0 (x : float) : float := if PrimFloat.ltb 0 x then x else 0%float.

Definition round_half_even (p q : Z) : Z :=
  let d := p / q in
  let r := p mod q in
  if 2 * r <? q then d
  else if q <? 2 * r then d + 1
  else if Z.even d then d else d + 1.

(** [round(x, 2)]: the exact value of [x] is rounded to a multiple of
    1/100, ties to even, and that decimal is read back as a double.  The
    quotient below is that double as long as the multiple has at most 53
    bits, which holds for every magnitude below 9e13; integral doubles
    are their own rounding. *)
Definition round2 (x : float) : float :=
  match Prim2SF x with
  | S754_finite s m e =>
      if 0 <=? e then x
      else
        let n := round_half_even (Z.pos m * 100) (2 ^ (- e)) in
        let r := (float_of_Z n / 100)%float in
        if s then (- r)%float else r
  | _ => x
  end.

(** *** Comma-separated lists *)

(** [s.split(sep)] for a one-character separator: the pieces between the
    separators, of which there is always at least one. *)
Fixpoint split_on (sep : ascii) (s : string) : list string :=
  match s with
  | EmptyString => [EmptyString]
  | String c t =>
      if Ascii.eqb c sep then EmptyString :: split_on sep t
      else match split_on sep t with
           | [] => [String c EmptyString]
           | piece :: pieces => String c piece :: pieces
           end
  end.

(** The characters [str.strip()] removes, within ASCII. *)
Definition is_space (c : ascii) : bool :=
  let n := nat_of_ascii c in
  ((9 <=? n) && (n <=? 13) || (28 <=? n) && (n <=? 32))%nat.

Fixpoint lstrip (s : string) : string :=
  match s with
  | EmptyString => EmptyString
  | String c t => if is_space c then lstrip t else s
  end.

Fixpoint rstrip (s : string) : string :=
  match s with
  | EmptyString => EmptyString
  | String c t =>
      match rstrip t with
      | EmptyString => if is_space c then EmptyString else String c EmptyString
      | kept => String c kept
      end
  end.

(** [s.strip()]. *)
Definition strip (s : string) : string := rstrip (lstrip s).

(** [[tag.strip() for tag in tags.split(',')]]. *)
Definition tag_list (tags : string) : list string :=
  map strip (split_on "," tags).

(** *** Exceptions *)

Inductive exception : Type :=
| TypeError (message : string)
| AttributeError (message : string).

Inductive result (A : Type) : Type :=
| Returned (value : A)
| Raised (e : exception).

Arguments Returned {A} value.
Arguments Raised {A} e.

End Py.

(* ================================================================= *)
(** ** Data model ([backend/models.py], as the services use it) *)

(** A number as a response dictionary holds it: the sentinel entry and the
    fallback scores are integers, prices and ranked scores are floats. *)
Inductive num : Type :=
| Int (z : Z)
| Float (f : float).

(** A budget hint.  The source keeps it as the text [f"under ${price}"]
    or [f"around ${price}"] and reads the price back with [float] after
    removing the words; printing a double and parsing the print gives the
    double back, so the embedding keeps the price itself.  [Unreadable] is
    a stored hint with neither word or without a number, which the source
    tolerates by leaving the budget fit at 100. *)
Inductive budget_hint : Type :=
| Under (price : float)
| Around (price : float)
| Unreadable.

Module Product.
Record t := {
  product_id : string;
  name : string;
  category : string;
  description : string;
  ingredients : option (list string);
  price : float;
  dietary_tags : option (list string);
  mood_tags : option (list string);
  allergens : option (list string);
  popularity_score : option Z;
  chef_special : bool;
  limited_time : bool;
  spice_level : option Z
}.
End Product.

(** The class [Conversation]: the columns the services read, and the
    score column.  The class declares [current_interest_score]; it
    declares no [interest_score]. *)
Module Conversation.
Record t := {
  conversation_id : string;
  user_preferences : list string;
  dietary_restrictions : list string;
  budget_range : option budget_hint;
  mood_tags : list string;
  current_interest_score : float
}.
End Conversation.

(** The two catalogue queries of the engine: [db.query(Product).all()] and
    the fallback query, products whose category is like the given one,
    most popular first. *)
Record Session := {
  all_products : list Product.t;
  products_like : string -> list Product.t
}.

(* ================================================================= *)
(** ** [backend/recommendation_engine.py] *)

Module RecommendationEngine.
Import Py.

Definition recommendation_weights_current_request_match : float := 0.4.
Definition recommendation_weights_preference_match : float := 0.2.
Definition recommendation_weights_mood_match : float := 0.15.
Definition recommendation_weights_dietary_compatibility : float := 0.15.
Definition recommendation_weights_budget_fit : float := 0.05.
Definition recommendation_weights_popularity : float := 0.05.

Definition category_keywords : list (string * list string) :=
  [ ("burgers", ["burger"; "hamburger"; "cheeseburger"; "beef burger"; "chicken burger"]);
    ("pizza", ["pizza"; "margherita"; "pepperoni"; "cheese pizza"]);
    ("tacos", ["taco"; "burrito"; "quesadilla"; "mexican"]);
    ("desserts", ["dessert"; "cake"; "ice cream"; "cookie"; "sweet"; "chocolate"; "pie"]);
    ("salads", ["salad"; "caesar"; "garden"; "healthy"; "greens"]);
    ("drinks", ["drink"; "beverage"; "soda"; "juice"; "coffee"; "tea"]);
    ("sandwiches", ["sandwich"; "sub"; "wrap"; "panini"]);
    ("pasta", ["pasta"; "spaghetti"; "fettuccine"; "lasagna"; "ravioli"]);
    ("chicken", ["chicken"; "wings"; "nuggets"; "fried chicken"]);
    ("seafood", ["fish"; "shrimp"; "salmon"; "seafood"; "lobster"]) ].

Definition dietary_exclusions : list (string * list string) :=
  [ ("vegetarian", ["beef"; "pork"; "chicken"; "turkey"; "fish"; "seafood"; "meat";
                    "bacon"; "ham"; "sausage"]);
    ("vegan", ["beef"; "pork"; "chicken"; "turkey"; "fish"; "seafood"; "meat"; "dairy";
               "cheese"; "milk"; "butter"; "cream"; "egg"; "honey"]);
    ("gluten-free", ["wheat"; "gluten"; "bread"; "pasta"; "flour"; "barley"; "rye"]);
    ("dairy-free", ["milk"; "cheese"; "butter"; "cream"; "yogurt"; "dairy"]);
    ("keto", ["bread"; "pasta"; "rice"; "potato"; "sugar"; "flour"]);
    ("low-carb", ["bread"; "pasta"; "rice"; "potato"; "sugar"; "flour"; "carbs"]) ].

Definition dietary_detection_keywords : list (string * list string) :=
  [ ("vegetarian", ["vegetarian"; "veg"; "veggie"; "no meat"; "plant-based"]);
    ("vegan", ["vegan"; "plant-based"; "no animal products"; "dairy-free and vegetarian"]);
    ("gluten-free", ["gluten-free"; "gluten free"; "no gluten"; "celiac"]);
    ("dairy-free", ["dairy-free"; "dairy free"; "no dairy"; "lactose-free"; "no milk"]);
    ("keto", ["keto"; "ketogenic"; "low-carb"; "no carbs"]);
    ("low-carb", ["low-carb"; "low carb"; "no carbs"; "carb-free"]) ].

Definition price_patterns : list pattern :=
  [ {| literal := "under "; dollar_required := false |};
    {| literal := "below "; dollar_required := false |};
    {| literal := "less than "; dollar_required := false |};
    {| literal := "around "; dollar_required := false |};
    {| literal := "about "; dollar_required := false |} ].

Definition mood_keywords : list (string * list string) :=
  [ ("comfort", ["comfort"; "cozy"; "warm"]);
    ("healthy", ["healthy"; "light"; "fresh"; "clean"]);
    ("indulgent", ["indulgent"; "rich"; "decadent"; "treat"]);
    ("spicy", ["spicy"; "hot"; "kick"]);
    ("quick", ["quick"; "fast"; "grab"]);
    ("fancy", ["fancy"; "special"; "gourmet"]) ].

(** The dictionary [extract_food_preferences_from_message] returns. *)
Record Preferences := {
  categories : list string;
  budget : option budget_hint;
  dietary : list string;
  moods : list string
}.

(** The loop over [price_patterns]: the first pattern, in list order,
    that matches anywhere in the message decides the hint. *)
Fixpoint budget_of_message (patterns : list pattern) (message_lower : string)
  : option budget_hint :=
  match patterns with
  | [] => None
  | p :: rest =>
      match re_search p message_lower with
      | Some digits =>
          let price := float_of_digits digits in
          if contains "under" (literal p) || contains "below" (literal p)
             || contains "less than" (literal p)
          then Some (Under price)
          else Some (Around price)
      | None => budget_of_message rest message_lower
      end
  end.

Definition extract_food_preferences_from_message (message : string) : Preferences :=
  let message_lower := lower message in
  {| categories := keys_hit category_keywords message_lower;
     budget := budget_of_message price_patterns message_lower;
     dietary := keys_hit dietary_detection_keywords message_lower;
     moods := keys_hit mood_keywords message_lower |}.

(** [[tag.lower() for tag in (product.dietary_tags or [])]]. *)
Definition product_dietary_tags (product : Product.t) : list string :=
  map lower (or_nil (Product.dietary_tags product)).

(** [f"{name} {description} {' '.join(ingredients or [])}".lower()]. *)
Definition product_text (product : Product.t) : string :=
  lower (Product.name product ++ " " ++ Product.description product ++ " "
         ++ String.concat " " (or_nil (Product.ingredients product))).

(** One turn of the inner loop of [_strict_dietary_filter]: the value of
    [is_suitable] after the body has run for [restriction], having been
    [True] before it. *)
Definition suits_restriction (product : Product.t) (restriction : string) : bool :=
  if negb (mem (lower restriction) (product_dietary_tags product)) then
    let exclusions := dict_get dietary_exclusions restriction [] in
    let is_suitable := negb (any_in exclusions (product_text product)) in
    if mem restriction ["vegetarian"; "vegan"]
       && negb (mem (lower restriction) (product_dietary_tags product))
    then false
    else is_suitable
  else true.

(** The inner loop, left at the first restriction that fails. *)
Fixpoint is_suitable (product : Product.t) (dietary_restrictions : list string) : bool :=
  match dietary_restrictions with
  | [] => true
  | restriction :: rest =>
      if suits_restriction product restriction then is_suitable product rest else false
  end.

Definition _strict_dietary_filter (products : list Product.t)
           (dietary_restrictions : list string) : list Product.t :=
  match dietary_restrictions with
  | [] => products
  | _ => filter (fun product => is_suitable product dietary_restrictions) products
  end.

(** The category test shared by the category filter and the score. *)
Definition category_matches (product : Product.t) (category : string) : bool :=
  contains (lower category) (lower (Product.category product))
  || any_in (dict_get category_keywords category []) (lower (Product.name product)).

(** *** [_calculate_recommendation_score] *)

Definition current_request_score (product : Product.t) (current_preferences : Preferences) : Z :=
  let after_category :=
    if existsb (category_matches product) (categories current_preferences) then 80 else 0 in
  let after_dietary :=
    fold_left (fun acc dietary =>
                 if mem (lower dietary) (product_dietary_tags product)
                 then acc + 50 else acc - 30)
              (dietary current_preferences) after_category in
  let after_moods :=
    fold_left (fun acc mood =>
                 if mem mood (or_nil (Product.mood_tags product)) then acc + 15 else acc)
              (moods current_preferences) after_dietary in
  Z.max 0 (Z.min after_moods 100).

Definition preference_score (product : Product.t) (user_preferences : list string) : Z :=
  let hit pref :=
    contains (lower pref) (lower (Product.name product))
    || contains (lower pref) (lower (Product.description product))
    || mem pref (or_nil (Product.dietary_tags product))
    || mem pref (or_nil (Product.mood_tags product)) in
  let preference_matches := Z.of_nat (List.length (filter hit user_preferences)) in
  Z.min (preference_matches * 20) 100.

(** [len(set(user_moods) & set(product.mood_tags or []))], times 30, capped. *)
Definition mood_score (product : Product.t) (user_moods : list string) : Z :=
  let common :=
    nodup string_dec
          (filter (fun m => mem m (or_nil (Product.mood_tags product))) user_moods) in
  let mood_matches := Z.of_nat (List.length common) in
  Z.min (mood_matches * 30) 100.

(** The loop over the conversation's restrictions; each [break] leaves
    the score at 0. *)
Fixpoint dietary_score (product : Product.t) (dietary_restrictions : list string) : Z :=
  match dietary_restrictions with
  | [] => 100
  | restriction :: rest =>
      if mem restriction (or_nil (Product.allergens product)) then 0
      else if negb (mem (lower restriction) (product_dietary_tags product))
              && any_in (dict_get dietary_exclusions restriction []) (product_text product)
      then 0
      else dietary_score product rest
  end.

(** The budget-fit sub-score, before its weight is applied. *)
Definition budget_score (product : Product.t) (budget_range : option budget_hint) : float :=
  match budget_range with
  | Some (Under budget_limit) =>
      if (Product.price product <=? budget_limit)%float then 100%float
      else max0 (100 - (Product.price product - budget_limit) * 10)%float
  | Some (Around target_price) =>
      let price_diff := PrimFloat.abs (Product.price product - target_price)%float in
      max0 (100 - price_diff * 5)%float
  | Some Unreadable => 100%float
  | None => 100%float
  end.

(** [current_preferences['budget'] or conversation.budget_range]. *)
Definition active_budget (current_preferences : Preferences)
           (conversation : Conversation.t) : option budget_hint :=
  match budget current_preferences with
  | Some b => Some b
  | None => Conversation.budget_range conversation
  end.

Definition _calculate_recommendation_score (product : Product.t)
           (conversation : option Conversation.t)
           (current_preferences : Preferences) : float :=
  let score := 0%float in
  let score :=
    (score + float_of_Z (current_request_score product current_preferences)
             * recommendation_weights_current_request_match)%float in
  let score :=
    match conversation with
    | Some conversation =>
        let score :=
          (score + float_of_Z (preference_score product
                                 (Conversation.user_preferences conversation))
                   * recommendation_weights_preference_match)%float in
        let score :=
          (score + float_of_Z (mood_score product (Conversation.mood_tags conversation))
                   * recommendation_weights_mood_match)%float in
        let score :=
          (score + float_of_Z (dietary_score product
                                 (Conversation.dietary_restrictions conversation))
                   * recommendation_weights_dietary_compatibility)%float in
        (score + budget_score product (active_budget current_preferences conversation)
                 * recommendation_weights_budget_fit)%float
    | None => score
    end in
  let popularity_score := or_int (Product.popularity_score product) 50 in
  let score := (score + float_of_Z popularity_score * recommendation_weights_popularity)%float in
  round2 score.

(** *** [_get_recommendation_reasons]

    A reason is an f-string over the data below; the embedding keeps the
    data and the order, not the wording. *)
Inductive reason : Type :=
| PerfectMatch (category : string)
| MeetsRequirements (dietary : string)
| GreatFor (mood : string)
| MatchesPreference (pref : string)
| WithinBudget (budget_limit : float)
| ChefSpecial
| LimitedTime
| HighlyPopular
| PopularOption (category : string)
| HighRating
| StrictFiltering (restrictions : list string).

Definition option_list {A : Type} (x : option A) : list A :=
  match x with
  | Some a => [a]
  | None => []
  end.

Definition _get_recommendation_reasons (product : Product.t)
           (conversation : option Conversation.t)
           (current_preferences : Preferences) : list reason :=
  let by_category :=
    option_list
      (find (fun category => contains (lower category) (lower (Product.category product)))
            (categories current_preferences)) in
  let by_dietary :=
    filter (fun dietary => mem (lower dietary) (product_dietary_tags product))
           (dietary current_preferences) in
  let by_mood :=
    filter (fun mood => mem mood (or_nil (Product.mood_tags product)))
           (moods current_preferences) in
  let by_history :=
    match conversation with
    | Some conversation =>
        let pref :=
          find (fun pref =>
                  contains (lower pref) (lower (Product.name product))
                  || contains (lower pref) (lower (Product.description product)))
               (Conversation.user_preferences conversation) in
        let within :=
          match active_budget current_preferences conversation with
          | Some (Under budget_limit) =>
              if (Product.price product <=? budget_limit)%float
              then [WithinBudget budget_limit] else []
          | _ => []
          end in
        (map MatchesPreference (option_list pref) ++ within)%list
    | None => []
    end in
  let by_feature :=
    ((if Product.chef_special product then [ChefSpecial] else [])
     ++ (if Product.limited_time product then [LimitedTime] else [])
     ++ (match Product.popularity_score product with
         | Some popularity => if 80 <? popularity then [HighlyPopular] else []
         | None => []
         end))%list in
  firstn 3 (map PerfectMatch by_category ++ map MeetsRequirements by_dietary
            ++ map GreatFor by_mood ++ by_history ++ by_feature)%list.

(** *** [get_personalized_recommendations] *)

(** An entry of [recommendations] and of [top_recommendations]. *)
Record Candidate := {
  product : Product.t;
  score : num;
  reasons : list reason
}.

(** An entry of the list the function returns. *)
Module Recommendation.
Record t := {
  product_id : string;
  name : string;
  category : string;
  description : string;
  price : num;
  dietary_tags : option (list string);
  mood_tags : option (list string);
  spice_level : option Z;
  popularity_score : option Z;
  recommendation_score : num;
  reasons : list reason
}.
End Recommendation.

(** The entry returned alone when no product meets the restrictions. *)
Definition no_match (all_dietary_restrictions : list string) : Recommendation.t :=
  {| Recommendation.product_id := "no_match";
     Recommendation.name := "No suitable products found";
     Recommendation.category := "Notice";
     Recommendation.description :=
       "Sorry, no products match your "
       ++ String.concat ", " all_dietary_restrictions ++ " requirements.";
     Recommendation.price := Int 0;
     Recommendation.dietary_tags := Some all_dietary_restrictions;
     Recommendation.mood_tags := Some [];
     Recommendation.spice_level := Some 0;
     Recommendation.popularity_score := Some 0;
     Recommendation.recommendation_score := Int 0;
     Recommendation.reasons := [StrictFiltering all_dietary_restrictions] |}.

(** The final comprehension: one response entry per candidate. *)
Definition format (rec : Candidate) : Recommendation.t :=
  {| Recommendation.product_id := Product.product_id (product rec);
     Recommendation.name := Product.name (product rec);
     Recommendation.category := Product.category (product rec);
     Recommendation.description := Product.description (product rec);
     Recommendation.price := Float (Product.price (product rec));
     Recommendation.dietary_tags := Product.dietary_tags (product rec);
     Recommendation.mood_tags := Product.mood_tags (product rec);
     Recommendation.spice_level := Product.spice_level (product rec);
     Recommendation.popularity_score := Product.popularity_score (product rec);
     Recommendation.recommendation_score := score rec;
     Recommendation.reasons := reasons rec |}.

(** The restrictions of the message first, then those of the
    conversation that the message did not name. *)
Definition all_dietary_restrictions (current_preferences : Preferences)
           (conversation : option Conversation.t) : list string :=
  match conversation with
  | Some conversation =>
      add_missing (dietary current_preferences)
                  (Conversation.dietary_restrictions conversation)
  | None => dietary current_preferences
  end.

(** Step 2: keep the products of a mentioned category, unless none is. *)
Definition filter_by_category (current_preferences : Preferences)
           (products : list Product.t) : list Product.t :=
  match categories current_preferences with
  | [] => products
  | cats =>
      match filter (fun product => existsb (category_matches product) cats) products with
      | [] => products
      | filtered_products => filtered_products
      end
  end.

(** Step 3: the budget hint of the message as a filter on the price. *)
Definition filter_by_budget (current_preferences : Preferences)
           (products : list Product.t) : list Product.t :=
  match budget current_preferences with
  | Some (Under max_price) =>
      filter (fun p => (Product.price p <=? max_price)%float) products
  | Some (Around target_price) =>
      let min_price := (target_price * 0.8)%float in
      let max_price := (target_price * 1.2)%float in
      filter (fun p => (min_price <=? Product.price p)%float
                       && (Product.price p <=? max_price)%float) products
  | Some Unreadable => products
  | None => products
  end.

(** [rec['score'] < 30]. *)
Definition below_30 (rec : Candidate) : bool :=
  match score rec with
  | Int z => z <? 30
  | Float f => (f <? 30)%float
  end.

Definition score_key (rec : Candidate) : float :=
  match score rec with
  | Int z => float_of_Z z
  | Float f => f
  end.

(** Steps 2 to 4, the sort and the cut: [top_recommendations] as it
    stands before step 5.  [products] has passed the dietary filter. *)
Definition ranked (products : list Product.t) (conversation : option Conversation.t)
           (current_preferences : Preferences) (restrictions : list string)
           (limit : Z) : list Candidate :=
  let products := filter_by_category current_preferences products in
  let products := filter_by_budget current_preferences products in
  let recommendations :=
    map (fun product =>
           let score := _calculate_recommendation_score product conversation
                                                       current_preferences in
           let score := match restrictions with
                        | [] => score
                        | _ => (score + 20)%float
                        end in
           {| product := product;
              score := Float score;
              reasons := _get_recommendation_reasons product conversation
                                                     current_preferences |})
        products in
  take limit (sort_desc score_key recommendations).

(** The condition of step 5. *)
Definition fallback_wanted (top_recommendations : list Candidate) : bool :=
  match top_recommendations with
  | [] => true
  | _ => forallb below_30 top_recommendations
  end.

(** The body of step 5 once a category is at hand: [None] when the
    query, filtered again, has nothing to offer. *)
Definition fallback (db : Session) (category : string) (restrictions : list string)
           (limit : Z) : option (list Candidate) :=
  let fallback_products := products_like db category in
  let fallback_products :=
    match restrictions with
    | [] => fallback_products
    | _ => _strict_dietary_filter fallback_products restrictions
    end in
  match fallback_products with
  | [] => None
  | _ =>
      Some (map (fun product =>
                   {| product := product;
                      score := Int (or_int (Product.popularity_score product) 50 + 20);
                      reasons := [PopularOption category; HighRating] |})
                (take limit fallback_products))
  end.

(** Which of the three ways out the function takes. *)
Inductive outcome : Type :=
| NoMatch (restrictions : list string)
| Primary (top_recommendations : list Candidate)
| Fallback (top_recommendations : list Candidate).

Definition recommend (conversation : option Conversation.t) (db : Session)
           (current_message : string) (limit : Z) : outcome :=
  let current_preferences := extract_food_preferences_from_message current_message in
  let restrictions := all_dietary_restrictions current_preferences conversation in
  let products := all_products db in
  let products :=
    match restrictions with
    | [] => products
    | _ => _strict_dietary_filter products restrictions
    end in
  match restrictions, products with
  | _ :: _, [] => NoMatch restrictions
  | _, _ =>
      let top_recommendations :=
        ranked products conversation current_preferences restrictions limit in
      if fallback_wanted top_recommendations then
        match categories current_preferences with
        | category :: _ =>
            match fallback db category restrictions limit with
            | Some replaced => Fallback replaced
            | None => Primary top_recommendations
            end
        | [] => Primary top_recommendations
        end
      else Primary top_recommendations
  end.

Definition get_personalized_recommendations (conversation : option Conversation.t)
           (db : Session) (current_message : string) (limit : Z)
  : list Recommendation.t :=
  match recommend conversation db current_message limit with
  | NoMatch restrictions => [no_match restrictions]
  | Primary top_recommendations => map format top_recommendations
  | Fallback top_recommendations => map format top_recommendations
  end.

(** *** [get_filtered_products]

    [query] is the catalogue query the function builds from [category],
    [min_price] and [max_price] and runs, most popular first; the filters
    on the dietary tags and on the mood tags are then applied to its
    result.  A filter given as [None] or as the empty text is not
    applied. *)
Definition get_filtered_products
           (query : option string -> option float -> option float -> list Product.t)
           (category : option string) (min_price max_price : option float)
           (dietary_tags mood_tags : option string) : list Product.t :=
  let products := query category min_price max_price in
  let products :=
    match dietary_tags with
    | None => products
    | Some EmptyString => products
    | Some tags => _strict_dietary_filter products (tag_list tags)
    end in
  match mood_tags with
  | None => products
  | Some EmptyString => products
  | Some tags =>
      let mood_list := tag_list tags in
      filter (fun product =>
                existsb (fun tag => mem tag (or_nil (Product.mood_tags product)))
                        mood_list)
             products
  end.

End RecommendationEngine.

(* ================================================================= *)
(** ** [backend/conversation_service.py] *)

Module ConversationService.
Import Py.

(** [ENGAGEMENT_FACTORS] and [NEGATIVE_FACTORS]. *)
Definition specific_preferences : Z := 15.
Definition dietary_restrictions : Z := 10.
Definition budget_mention : Z := 5.
Definition mood_indication : Z := 20.
Definition question_asking : Z := 10.
Definition enthusiasm_words : Z := 8.
Definition price_inquiry : Z := 25.
Definition order_intent : Z := 30.
Definition hesitation : Z := -10.
Definition budget_concern : Z := -15.
Definition dietary_conflict : Z := -20.
Definition rejection : Z := -25.
Definition delay_response : Z := -5.

Definition specific_preference_keywords : list string :=
  [ "spicy"; "mild"; "hot"; "korean"; "mexican"; "italian"; "chinese";
    "burger"; "pizza"; "taco"; "salad"; "chicken"; "beef"; "vegetarian";
    "vegan"; "crispy"; "juicy"; "creamy"; "crunchy"; "sweet"; "salty" ].

Definition dietary_keywords : list string :=
  [ "vegetarian"; "vegan"; "gluten-free"; "dairy-free"; "keto"; "low-carb";
    "halal"; "kosher"; "allergic"; "allergy"; "no dairy"; "no gluten" ].

Definition mood_keywords : list string :=
  [ "adventurous"; "comfort"; "healthy"; "indulgent"; "quick"; "fancy";
    "feeling"; "mood"; "craving"; "want something"; "in the mood for" ].

Definition enthusiasm_keywords : list string :=
  [ "amazing"; "perfect"; "love"; "awesome"; "fantastic"; "great";
    "excellent"; "wonderful"; "delicious"; "yummy"; "sounds good" ].

Definition hesitation_keywords : list string :=
  [ "maybe"; "not sure"; "uncertain"; "hmm"; "i think"; "perhaps";
    "possibly"; "might"; "could be"; "not really sure" ].

Definition budget_concern_keywords : list string :=
  [ "too expensive"; "too much"; "costly"; "pricey"; "expensive";
    "cheap"; "affordable"; "budget"; "money" ].

Definition question_keywords : list string :=
  [ "what"; "how"; "when"; "where"; "why"; "which"; "can you";
    "do you have"; "is it"; "does it"; "spice level"; "ingredients" ].

Definition order_intent_keywords : list string :=
  [ "i'll take"; "add to cart"; "order"; "get me"; "i want that";
    "sounds perfect"; "i'll have"; "give me"; "let's go with" ].

Definition budget_patterns : list pattern :=
  [ {| literal := "under "; dollar_required := false |};
    {| literal := "below "; dollar_required := false |};
    {| literal := "less than "; dollar_required := false |};
    {| literal := "around "; dollar_required := false |};
    {| literal := "about "; dollar_required := false |};
    {| literal := EmptyString; dollar_required := true |} ].

Definition price_inquiry_patterns : list string :=
  [ "how much"; "what does it cost"; "price"; "cost"; "expensive";
    "how much is"; "what's the price" ].

Definition rejection_patterns : list string :=
  [ "i don't like"; "not interested"; "no thanks"; "don't want";
    "hate"; "dislike"; "not for me"; "pass" ].

(** *** The detectors of [_calculate_interest_score_change]

    One definition per detection loop of the function, on the lowered
    message (the question test also reads the message as typed). *)

Definition specific_prefs_found (message_lower : string) : Z :=
  Z.of_nat (List.length (matches_in specific_preference_keywords message_lower)).

Definition dietary_found (message_lower : string) : bool :=
  any_in dietary_keywords message_lower.

Definition budget_mentioned (message_lower : string) : bool :=
  existsb (fun p => match re_search p message_lower with
                    | Some _ => true
                    | None => false
                    end) budget_patterns.

Definition mood_found (message_lower : string) : bool :=
  any_in mood_keywords message_lower.

Definition question_found (message_lower : string) : bool :=
  any_in question_keywords message_lower.

Definition enthusiasm_found (message_lower : string) : Z :=
  Z.of_nat (List.length (matches_in enthusiasm_keywords message_lower)).

Definition price_inquiry_found (message_lower : string) : bool :=
  any_in price_inquiry_patterns message_lower.

Definition order_intent_found (message_lower : string) : bool :=
  any_in order_intent_keywords message_lower.

Definition hesitation_found (message_lower : string) : bool :=
  any_in hesitation_keywords message_lower.

Definition budget_concern_found (message_lower : string) : bool :=
  existsb (fun keyword =>
             contains keyword message_lower
             && (contains "too" message_lower || contains "expensive" message_lower))
          budget_concern_keywords.

Definition rejection_found (message_lower : string) : bool :=
  any_in rejection_patterns message_lower.

(** [if found: score_change += weight; engagement_factors.append(text)]. *)
Definition register (found : bool) (weight : Z) (text : string)
           (acc : Z * list string) : Z * list string :=
  if found then (fst acc + weight, (snd acc ++ [text])%list) else acc.

(** The function reads neither the conversation nor the session it is
    handed, so the embedding takes the message alone. *)
Definition _calculate_interest_score_change (message : string) : Z * list string :=
  let message_lower := lower message in
  let acc := (0, []) in
  let acc :=
    register (0 <? specific_prefs_found message_lower) specific_preferences
             ("Specific preferences mentioned ("
              ++ str_of_Z (specific_prefs_found message_lower) ++ " detected)") acc in
  let acc :=
    register (dietary_found message_lower) dietary_restrictions
             "Dietary restrictions mentioned" acc in
  let acc :=
    register (budget_mentioned message_lower) budget_mention "Budget mentioned" acc in
  let acc :=
    register (mood_found message_lower) mood_indication "Mood/feeling indicated" acc in
  let acc :=
    register (question_found message_lower || contains "?" message) question_asking
             "Question asked" acc in
  let acc :=
    register (0 <? enthusiasm_found message_lower) enthusiasm_words
             ("Enthusiasm detected ("
              ++ str_of_Z (enthusiasm_found message_lower) ++ " positive words)") acc in
  let acc :=
    register (price_inquiry_found message_lower) price_inquiry
             "Price inquiry detected" acc in
  let acc :=
    register (order_intent_found message_lower) order_intent
             "Order intent detected" acc in
  let acc :=
    register (hesitation_found message_lower) hesitation "Hesitation detected (-10)" acc in
  let acc :=
    register (budget_concern_found message_lower) budget_concern
             "Budget concern detected (-15)" acc in
  let acc :=
    register (rejection_found message_lower) rejection "Rejection detected (-25)" acc in
  acc.

(** *** [_extract_preferences] *)

Definition mood_map : list (string * list string) :=
  [ ("adventurous", ["adventurous"; "adventure"; "try something new"]);
    ("comfort", ["comfort"; "cozy"; "familiar"]);
    ("healthy", ["healthy"; "light"; "fresh"]);
    ("indulgent", ["indulgent"; "rich"; "treat myself"]);
    ("quick", ["quick"; "fast"; "hurry"]);
    ("fancy", ["fancy"; "special"; "gourmet"]) ].

Record Extracted := {
  specific_prefs : list string;
  dietary : list string;
  moods : list string
}.

Definition _extract_preferences (message : string) : Extracted :=
  let message_lower := lower message in
  {| specific_prefs := matches_in specific_preference_keywords message_lower;
     dietary := matches_in dietary_keywords message_lower;
     moods := keys_hit mood_map message_lower |}.

(** *** [process_message] *)

(** The dictionary the function would return, without the reply text. *)
Record Response := {
  conversation_id : string;
  interest_score : Z;
  interest_score_change : Z;
  engagement_factors : list string;
  recommendations : list RecommendationEngine.Recommendation.t
}.


(** [row] is what the lookup by conversation id found, [None] also when
    no id was given.  The result is the row as the call leaves it in the
    session, and what the call returns or raises.

    Without a row the function builds one with
    [Conversation(..., interest_score=0)]; the class declares no such
    attribute, so its constructor raises [TypeError] before anything is
    added to the session.  With a row the function computes the score
    change and then reads [conversation.interest_score], which raises
    [AttributeError] before anything is written.  The handler logs the
    exception and raises it again. *)
Definition process_message (message : string) (row : option Conversation.t)
  : option Conversation.t * result Response :=
  match row with
  | None =>
      (None,
       Raised (TypeError
                 "'interest_score' is an invalid keyword argument for Conversation"))
  | Some conversation =>
      let '(score_change, engagement_factors) :=
        _calculate_interest_score_change message in
      (Some conversation,
       Raised (AttributeError
                 "'Conversation' object has no attribute 'interest_score'"))
  end.

End ConversationService.

(* ================================================================= *)
(** ** A small menu

    Products and a session over them, for the concrete runs below. *)

Module Menu.
Import Py.

Definition item (product_id name category description : string)
           (ingredients : list string) (price : float)
           (dietary_tags : option (list string)) (popularity_score : option Z)
  : Product.t :=
  {| Product.product_id := product_id;
     Product.name := name;
     Product.category := category;
     Product.description := description;
     Product.ingredients := Some ingredients;
     Product.price := price;
     Product.dietary_tags := dietary_tags;
     Product.mood_tags := None;
     Product.allergens := None;
     Product.popularity_score := popularity_score;
     Product.chef_special := false;
     Product.limited_time := false;
     Product.spice_level := Some 0 |}.

Definition garden_bowl : Product.t :=
  item "SH001" "Garden Bowl" "Salads & Healthy" "Crisp greens with lemon dressing"
       ["lettuce"; "cucumber"; "lemon"] 8 (Some ["vegetarian"]) (Some 60).

Definition classic_burger : Product.t :=
  item "BR001" "Classic Burger" "Burgers" "Juicy beef patty on a toasted bun"
       ["bun"; "patty"; "pickles"] 12 None (Some 85).

Definition plain_fries : Product.t :=
  item "SA001" "Plain Fries" "Sides & Appetizers" "Golden potato sticks"
       ["potato"; "salt"] 3 None (Some 70).

Definition new_burger : Product.t :=
  item "BR002" "Smash Burger" "Burgers" "Thin patty, sharp pickles"
       ["bun"; "patty"; "pickles"] 9 None (Some 0).

(** A session over a catalogue held in a list: the fallback query keeps
    the products whose category contains the given one, whatever the
    case, most popular first, those without a popularity last. *)
Definition session (catalogue : list Product.t) : Session :=
  {| all_products := catalogue;
     products_like := fun category =>
       sort_desc
         (fun p => float_of_Z (match Product.popularity_score p with
                               | Some popularity => popularity
                               | None => -1
                               end))
         (filter (fun p => contains (lower category) (lower (Product.category p)))
                 catalogue) |}.

Definition beefless_burger : Product.t :=
  item "BR003" "Beefless Burger" "Burgers" "Plant patty with the taste of beef"
       ["bun"; "pea protein"] 11 (Some ["Vegan"; "Vegetarian"]) (Some 75).

Definition vegan_wrap : Product.t :=
  item "TW001" "Green Wrap" "Tacos & Wraps" "Grilled vegetables in a corn wrap"
       ["corn wrap"; "zucchini"; "pepper"] 7 (Some ["vegan"]) (Some 65).

Definition bean_taco : Product.t :=
  item "TW002" "Bean Taco" "Tacos & Wraps" "Black beans in a crisp shell"
       ["shell"; "beans"] 7 (Some ["vegan"]) (Some 65).

Definition deluxe_burger : Product.t :=
  item "BR004" "Deluxe Burger" "Burgers" "Double patty with aged cheddar"
       ["bun"; "patty"; "cheddar"] 15 None (Some 90).

(** A stored conversation that likes spicy food, is vegan and is in a
    comfort mood. *)
Definition spicy_vegan_row : Conversation.t :=
  {| Conversation.conversation_id := "c-1";
     Conversation.user_preferences := ["spicy"];
     Conversation.dietary_restrictions := ["vegan"];
     Conversation.budget_range := None;
     Conversation.mood_tags := ["comfort"];
     Conversation.current_interest_score := 40 |}.

End Menu.

(* ================================================================= *)
(** ** Properties *)

Import Py.

(** *** Lists of strings *)

Lemma mem_In (s : string) (l : list string) : mem s l = true <-> In s l.
Proof.
  unfold mem. rewrite existsb_exists. split.
  - intros [x [Hx Heq]]. apply String.eqb_eq in Heq. now subst.
  - intros H. exists s. split; [assumption | apply String.eqb_refl].
Qed.

Lemma mem_false_not_In (s : string) (l : list string) : mem s l = false <-> ~ In s l.
Proof.
  rewrite <- mem_In. destruct (mem s l); split; intro H; congruence.
Qed.

Lemma add_missing_extends (new acc : list string) :
  exists extra, add_missing acc new = (acc ++ extra)%list.
Proof.
  unfold add_missing. revert acc.
  induction new as [|x new IH]; intros acc; cbn [fold_left].
  - exists []. now rewrite app_nil_r.
  - destruct (mem x acc).
    + apply IH.
    + destruct (IH (acc ++ [x])%list) as [extra Hextra].
      exists (x :: extra). rewrite Hextra, <- app_assoc. reflexivity.
Qed.

Lemma add_missing_In (new acc : list string) (x : string) :
  In x (add_missing acc new) <-> In x acc \/ In x new.
Proof.
  unfold add_missing. revert acc.
  induction new as [|y new IH]; intros acc; cbn [fold_left].
  - cbn. tauto.
  - destruct (mem y acc) eqn:Hy.
    + rewrite IH. apply mem_In in Hy. cbn. intuition (subst; auto).
    + rewrite IH, in_app_iff. cbn. tauto.
Qed.

Lemma add_missing_known (new acc : list string) :
  (forall x, In x new -> In x acc) -> add_missing acc new = acc.
Proof.
  unfold add_missing. revert acc.
  induction new as [|y new IH]; intros acc Hknown; cbn [fold_left].
  - reflexivity.
  - assert (Hy : mem y acc = true) by (apply mem_In, Hknown; now left).
    rewrite Hy. apply IH. intros x Hx. apply Hknown. now right.
Qed.

Lemma add_missing_twice (new acc : list string) :
  add_missing (add_missing acc new) new = add_missing acc new.
Proof.
  apply add_missing_known. intros x Hx. apply add_missing_In. now right.
Qed.

(** *** The raw delta of a message *)

Section RawDelta.
Import ConversationService.

Lemma register_fst (found : bool) (weight : Z) (text : string) (acc : Z * list string) :
  fst (register found weight text acc) = fst acc + (if found then weight else 0).
Proof.
  unfold register. destruct found; cbn [fst]; lia.
Qed.

(** The raw delta is the sum of the weights of the factors that fire. *)
Lemma score_change_is_sum_of_weights (message : string) :
  let m := lower message in
  fst (_calculate_interest_score_change message)
  = (if 0 <? specific_prefs_found m then specific_preferences else 0)
    + (if dietary_found m then dietary_restrictions else 0)
    + (if budget_mentioned m then budget_mention else 0)
    + (if mood_found m then mood_indication else 0)
    + (if question_found m || contains "?" message then question_asking else 0)
    + (if 0 <? enthusiasm_found m then enthusiasm_words else 0)
    + (if price_inquiry_found m then price_inquiry else 0)
    + (if order_intent_found m then order_intent else 0)
    + (if hesitation_found m then hesitation else 0)
    + (if budget_concern_found m then budget_concern else 0)
    + (if rejection_found m then rejection else 0).
Proof.
  cbv zeta. unfold _calculate_interest_score_change.
  rewrite !register_fst. cbn [fst]. lia.
Qed.

Lemma maybe_is_hesitation (m : string) :
  contains "maybe" m = true -> hesitation_found m = true.
Proof.
  intros H. unfold hesitation_found, any_in, hesitation_keywords.
  cbn [existsb]. rewrite H. reflexivity.
Qed.

Lemma amazing_is_enthusiasm (m : string) :
  contains "amazing" m = true -> (0 <? enthusiasm_found m) = true.
Proof.
  intros H. unfold enthusiasm_found, matches_in, enthusiasm_keywords.
  cbn [filter]. rewrite H. cbn [List.length]. apply Z.ltb_lt. lia.
Qed.

(** C8. A message that contains "maybe" and "amazing" and sets off no
    factor besides hesitation and enthusiasm has raw delta -2, the sum of
    the hesitation weight -10 and the enthusiasm weight 8. *)
Theorem maybe_amazing_nets_minus_two (message : string) :
  let m := lower message in
  contains "maybe" m = true ->
  contains "amazing" m = true ->
  specific_prefs_found m = 0 ->
  dietary_found m = false ->
  budget_mentioned m = false ->
  mood_found m = false ->
  question_found m = false ->
  contains "?" message = false ->
  price_inquiry_found m = false ->
  order_intent_found m = false ->
  budget_concern_found m = false ->
  rejection_found m = false ->
  fst (_calculate_interest_score_change message) = -2
  /\ hesitation + enthusiasm_words = -2.
Proof.
  cbv zeta.
  intros Hmaybe Hamazing Hprefs Hdiet Hbudget Hmood Hquestion Hmark Hprice Horder
         Hconcern Hreject.
  split; [|reflexivity].
  rewrite score_change_is_sum_of_weights. cbv zeta.
  rewrite Hprefs, Hdiet, Hbudget, Hmood, Hquestion, Hmark, Hprice, Horder, Hconcern,
    Hreject, (maybe_is_hesitation _ Hmaybe), (amazing_is_enthusiasm _ Hamazing).
  reflexivity.
Qed.

End RawDelta.

(** C8 on the message "Maybe, but that sounds AMAZING". *)
Lemma maybe_amazing_nets_minus_two_witness :
  fst (ConversationService._calculate_interest_score_change
         "Maybe, but that sounds AMAZING") = -2
  /\ ConversationService.hesitation + ConversationService.enthusiasm_words = -2.
Proof.
  apply (maybe_amazing_nets_minus_two "Maybe, but that sounds AMAZING");
    vm_compute; reflexivity.
Defined.

(** *** Substrings *)

Lemma prefix_append (a b : string) : prefix a (a ++ b) = true.
Proof.
  induction a as [|c a IH]; cbn.
  - now destruct b.
  - destruct (ascii_dec c c) as [_ | Hne]; [exact IH | now elim Hne].
Qed.

Lemma prefix_append_right (n s q : string) :
  prefix n s = true -> prefix n (s ++ q) = true.
Proof.
  revert s. induction n as [|c n IH]; intros s H.
  - now destruct (s ++ q).
  - destruct s as [|d s]; cbn in H; [discriminate|].
    cbn. destruct (ascii_dec c d); [now apply IH | discriminate].
Qed.

Lemma contains_of_prefix (n s : string) : prefix n s = true -> contains n s = true.
Proof.
  intros H. destruct s; cbn [contains]; now rewrite H.
Qed.

Lemma contains_append_left (n p s : string) :
  contains n s = true -> contains n (p ++ s) = true.
Proof.
  intros H. induction p as [|c p IH]; [exact H|].
  cbn [append contains]. now destruct (prefix n (String c (p ++ s))).
Qed.

Lemma contains_append_right (n s q : string) :
  contains n s = true -> contains n (s ++ q) = true.
Proof.
  induction s as [|c s IH]; cbn [contains]; intros H.
  - destruct (prefix n EmptyString) eqn:Hp; [|discriminate].
    apply contains_of_prefix. now apply (prefix_append_right n EmptyString q).
  - destruct (prefix n (String c s)) eqn:Hp.
    + apply contains_of_prefix. now apply (prefix_append_right n (String c s) q).
    + cbn [append contains]. rewrite (IH H).
      destruct (prefix n (String c (s ++ q))); reflexivity.
Qed.

Lemma prefix_same (a : string) : prefix a a = true.
Proof.
  induction a as [|c a IH]; cbn; [reflexivity|].
  destruct (ascii_dec c c) as [_ | Hne]; [exact IH | now elim Hne].
Qed.

Lemma contains_concat (sep r : string) (l : list string) :
  In r l -> contains r (String.concat sep l) = true.
Proof.
  induction l as [|x l IH]; [intros []|].
  intros [-> | Hin].
  - destruct l as [|y l]; cbn [String.concat]; apply contains_of_prefix.
    + apply prefix_same.
    + apply prefix_append.
  - destruct l as [|y l]; [destruct Hin|].
    cbn [String.concat]. cbn [String.concat] in IH.
    apply contains_append_left, contains_append_left, IH, Hin.
Qed.

(** *** Sorting and cutting keep to the list *)

Lemma insert_desc_In {A : Type} (key : A -> float) (x y : A) (l : list A) :
  In y (insert_desc key x l) <-> y = x \/ In y l.
Proof.
  induction l as [|z l IH]; cbn [insert_desc].
  - cbn. intuition.
  - destruct (key x <? key z)%float; cbn [In]; [rewrite IH|]; intuition.
Qed.

Lemma sort_desc_In {A : Type} (key : A -> float) (y : A) (l : list A) :
  In y (sort_desc key l) <-> In y l.
Proof.
  unfold sort_desc. induction l as [|x l IH]; cbn [fold_right].
  - reflexivity.
  - rewrite insert_desc_In, IH. cbn. intuition.
Qed.

Lemma firstn_keeps {A : Type} (n : nat) (y : A) (l : list A) :
  In y (firstn n l) -> In y l.
Proof.
  intros H. rewrite <- (firstn_skipn n l). apply in_or_app. now left.
Qed.

Lemma take_In {A : Type} (limit : Z) (y : A) (l : list A) :
  In y (take limit l) -> In y l.
Proof.
  unfold take. destruct (0 <=? limit); apply firstn_keeps.
Qed.

(** *** The dietary filter *)

Section DietaryFilter.
Import RecommendationEngine.

Lemma strict_filter_In (products : list Product.t) (restrictions : list string)
      (product : Product.t) :
  restrictions <> [] ->
  (In product (_strict_dietary_filter products restrictions)
   <-> In product products /\ is_suitable product restrictions = true).
Proof.
  intros Hne. unfold _strict_dietary_filter.
  destruct restrictions as [|r rest]; [now elim Hne|].
  apply filter_In.
Qed.

Lemma is_suitable_all (product : Product.t) (restrictions : list string) :
  is_suitable product restrictions = true
  <-> forall r, In r restrictions -> suits_restriction product r = true.
Proof.
  induction restrictions as [|r rest IH]; cbn [is_suitable].
  - split; [intros _ r [] | reflexivity].
  - destruct (suits_restriction product r) eqn:Hr.
    + rewrite IH. split.
      * intros H r' [<- | Hin]; auto.
      * intros H r' Hin. apply H. now right.
    + split; [discriminate|].
      intros H. rewrite <- Hr. apply H. now left.
Qed.

Lemma tagged_suits (product : Product.t) (restriction : string) :
  mem (lower restriction) (product_dietary_tags product) = true ->
  suits_restriction product restriction = true.
Proof.
  intros H. unfold suits_restriction. now rewrite H.
Qed.

Lemma untagged_strict_fails (product : Product.t) (restriction : string) :
  restriction = "vegetarian" \/ restriction = "vegan" ->
  mem restriction (product_dietary_tags product) = false ->
  suits_restriction product restriction = false.
Proof.
  intros [-> | ->] H; unfold suits_restriction;
    change (lower "vegetarian") with "vegetarian";
    change (lower "vegan") with "vegan";
    rewrite H; reflexivity.
Qed.

Lemma no_tag_like (product : Product.t) (restriction : string) :
  (forall tag, In tag (or_nil (Product.dietary_tags product)) -> lower tag <> restriction) ->
  mem restriction (product_dietary_tags product) = false.
Proof.
  intros H. apply mem_false_not_In. unfold product_dietary_tags.
  rewrite in_map_iff. intros [tag [Heq Hin]]. exact (H tag Hin Heq).
Qed.

(** C2. Under the restriction "vegetarian" alone, a product of the list
    that carries the tag "vegetarian" is kept, and a product without
    dietary tags whose description contains "beef" is dropped.  Under any
    restrictions that include "vegetarian" or "vegan", a product none of
    whose tags is that word, whatever the case of the tag, is dropped,
    whatever its name, description and ingredients say. *)
Theorem strict_filter_vegetarian (products : list Product.t) (product : Product.t) :
  (In product products ->
   In "vegetarian" (or_nil (Product.dietary_tags product)) ->
   In product (_strict_dietary_filter products ["vegetarian"]))
  /\ (or_nil (Product.dietary_tags product) = [] ->
      contains "beef" (Product.description product) = true ->
      ~ In product (_strict_dietary_filter products ["vegetarian"]))
  /\ (forall restriction restrictions,
         restriction = "vegetarian" \/ restriction = "vegan" ->
         In restriction restrictions ->
         (forall tag, In tag (or_nil (Product.dietary_tags product)) ->
                      lower tag <> restriction) ->
         ~ In product (_strict_dietary_filter products restrictions)).
Proof.
  assert (Hstrict : forall restriction restrictions,
             restriction = "vegetarian" \/ restriction = "vegan" ->
             In restriction restrictions ->
             (forall tag, In tag (or_nil (Product.dietary_tags product)) ->
                          lower tag <> restriction) ->
             ~ In product (_strict_dietary_filter products restrictions)).
  { intros restriction restrictions Hr Hin Htags Hkept.
    apply strict_filter_In in Hkept; [|intros ->; destruct Hin].
    destruct Hkept as [_ Hsuit]. rewrite is_suitable_all in Hsuit.
    specialize (Hsuit restriction Hin).
    rewrite (untagged_strict_fails product restriction Hr) in Hsuit; [discriminate|].
    now apply no_tag_like. }
  split; [|split].
  - intros Hin Htag. apply strict_filter_In; [discriminate|].
    split; [assumption|]. apply is_suitable_all. intros r [<- | []].
    apply tagged_suits. apply mem_In. unfold product_dietary_tags.
    change (lower "vegetarian") with "vegetarian".
    apply in_map_iff. exists "vegetarian". split; [reflexivity | assumption].
  - intros Hnone _. apply (Hstrict "vegetarian"); [now left | now left |].
    rewrite Hnone. intros tag [].
  - exact Hstrict.
Qed.

End DietaryFilter.

(** C2 on the menu: under "vegetarian" the tagged bowl stays and the
    burger, untagged and described as beef, goes; under "vegan" the
    untagged fries go although no excluded term occurs in their text. *)
Lemma strict_filter_vegetarian_witness :
  let products := [Menu.garden_bowl; Menu.classic_burger; Menu.plain_fries] in
  In Menu.garden_bowl (RecommendationEngine._strict_dietary_filter products ["vegetarian"])
  /\ ~ In Menu.classic_burger
          (RecommendationEngine._strict_dietary_filter products ["vegetarian"])
  /\ (any_in (dict_get RecommendationEngine.dietary_exclusions "vegan" [])
             (RecommendationEngine.product_text Menu.plain_fries) = false
      /\ ~ In Menu.plain_fries
              (RecommendationEngine._strict_dietary_filter products ["vegan"])).
Proof.
  cbv zeta. split; [|split; [|split]].
  - apply (strict_filter_vegetarian _ Menu.garden_bowl); cbn; auto.
  - apply (strict_filter_vegetarian _ Menu.classic_burger); vm_compute; reflexivity.
  - vm_compute. reflexivity.
  - apply (proj2 (proj2 (strict_filter_vegetarian _ Menu.plain_fries)) "vegan" ["vegan"]).
    + now right.
    + now left.
    + cbn. intros tag [].
Defined.

(** *** The ways out of [get_personalized_recommendations] *)

Section Outcomes.
Import RecommendationEngine.

Variable conversation : option Conversation.t.
Variable db : Session.
Variable current_message : string.
Variable limit : Z.

Let current_preferences := extract_food_preferences_from_message current_message.
Let restrictions := all_dietary_restrictions current_preferences conversation.

(** The products that reach step 2. *)
Let compliant :=
  match restrictions with
  | [] => all_products db
  | _ => _strict_dietary_filter (all_products db) restrictions
  end.

Let top := ranked compliant conversation current_preferences restrictions limit.

Lemma recommend_no_match :
  restrictions <> [] ->
  _strict_dietary_filter (all_products db) restrictions = [] ->
  recommend conversation db current_message limit = NoMatch restrictions.
Proof.
  intros Hne Hempty. unfold recommend.
  fold current_preferences. fold restrictions.
  destruct restrictions as [|r rest] eqn:Hr; [now elim Hne|].
  rewrite Hempty. reflexivity.
Qed.


(** C3. When the dietary filter leaves no product, be it from a catalogue
    that has products or under restrictions that are in force, the
    function returns one entry, the notice with product id "no_match",
    and the description of the notice contains every restriction. *)
Theorem no_match_when_filter_empties :
  (all_products db <> [] \/ restrictions <> []) ->
  _strict_dietary_filter (all_products db) restrictions = [] ->
  get_personalized_recommendations conversation db current_message limit
  = [no_match restrictions]
  /\ get_personalized_recommendations conversation db current_message limit <> []
  /\ Recommendation.product_id (no_match restrictions) = "no_match"
  /\ (forall r, In r restrictions ->
                contains r (Recommendation.description (no_match restrictions)) = true).
Proof.
  intros Hsome Hempty.
  assert (Hne : restrictions <> []).
  { destruct Hsome as [Hcat | Hne]; [|exact Hne].
    intros Hnil. apply Hcat. rewrite Hnil in Hempty. exact Hempty. }
  assert (Hout : get_personalized_recommendations conversation db current_message limit
                 = [no_match restrictions]).
  { unfold get_personalized_recommendations.
    now rewrite (recommend_no_match Hne Hempty). }
  rewrite Hout. split; [reflexivity|]. split; [discriminate|]. split; [reflexivity|].
  intros r Hin. unfold no_match. cbn [Recommendation.description].
  apply contains_append_left, contains_append_right, contains_concat, Hin.
Qed.

(** Every [Primary] answer is the ranking of the compliant products. *)
Lemma recommend_primary (answer : list Candidate) :
  recommend conversation db current_message limit = Primary answer -> answer = top.
Proof.
  unfold recommend. fold current_preferences. fold restrictions.
  fold compliant. fold top.
  destruct restrictions as [|r rest] eqn:Hr.
  - destruct (fallback_wanted top); [|congruence].
    destruct (categories current_preferences) as [|category others]; [congruence|].
    destruct (fallback db category [] limit); congruence.
  - destruct compliant; [discriminate|].
    destruct (fallback_wanted top); [|congruence].
    destruct (categories current_preferences) as [|category others]; [congruence|].
    destruct (fallback db category (r :: rest) limit); congruence.
Qed.

(** A ranked candidate is a product that passed the budget filter. *)
Lemma ranked_passed_budget (products : list Product.t) (rec : Candidate) :
  In rec (ranked products conversation current_preferences restrictions limit) ->
  In (product rec)
     (filter_by_budget current_preferences
                       (filter_by_category current_preferences products)).
Proof.
  unfold ranked. intros H.
  apply take_In, sort_desc_In, in_map_iff in H.
  destruct H as [p [<- Hp]]. exact Hp.
Qed.

(** C10. On the primary path, when the budget hint read from the message
    is "under X", every recommendation returned has a price of at most X;
    when it is "around X", every recommendation returned has a price
    between X * 0.8 and X * 1.2, computed and compared as doubles: the hint
    has filtered the candidates before any of them was scored. *)
Theorem budget_hint_filters_primary (answer : list Candidate) :
  recommend conversation db current_message limit = Primary answer ->
  (forall X, budget current_preferences = Some (Under X) ->
     forall rec,
       In rec (get_personalized_recommendations conversation db current_message limit) ->
       exists p, Recommendation.price rec = Float p /\ (p <=? X)%float = true)
  /\ (forall X, budget current_preferences = Some (Around X) ->
        forall rec,
          In rec (get_personalized_recommendations conversation db current_message limit) ->
          exists p, Recommendation.price rec = Float p
                    /\ (X * 0.8 <=? p)%float = true /\ (p <=? X * 1.2)%float = true).
Proof.
  intros Hprimary.
  assert (Hanswer : answer = top) by now apply recommend_primary.
  unfold get_personalized_recommendations. rewrite Hprimary, Hanswer.
  split; intros X Hbudget rec Hin; apply in_map_iff in Hin;
    destruct Hin as [cand [<- Hcand]];
    apply ranked_passed_budget in Hcand;
    unfold filter_by_budget in Hcand; rewrite Hbudget in Hcand;
    apply filter_In in Hcand; destruct Hcand as [_ Hprice];
    exists (Product.price (product cand)); (split; [reflexivity|]).
  - exact Hprice.
  - apply andb_true_iff in Hprice. exact Hprice.
Qed.

(** *** Step 5 *)

Lemma fallback_wanted_iff (candidates : list Candidate) :
  fallback_wanted candidates = true
  <-> candidates = [] \/ Forall (fun rec => below_30 rec = true) candidates.
Proof.
  unfold fallback_wanted. destruct candidates as [|rec rest].
  - split; [now left | reflexivity].
  - rewrite forallb_forall, Forall_forall. split.
    + intros H. now right.
    + intros [H | H]; [discriminate | exact H].
Qed.


(** What the fallback hands out: products of the category query that pass
    the dietary filter, each with the score [(popularity or 50) + 20]. *)
Lemma fallback_candidates (category : string) (replaced : list Candidate) :
  fallback db category restrictions limit = Some replaced ->
  forall rec, In rec replaced ->
    In (product rec) (_strict_dietary_filter (products_like db category) restrictions)
    /\ score rec = Int (or_int (Product.popularity_score (product rec)) 50 + 20).
Proof.
  unfold fallback. intros H rec Hin.
  assert (Hsame : match restrictions with
                  | [] => products_like db category
                  | _ => _strict_dietary_filter (products_like db category) restrictions
                  end = _strict_dietary_filter (products_like db category) restrictions)
    by (unfold _strict_dietary_filter; now destruct restrictions).
  rewrite Hsame in H.
  destruct (_strict_dietary_filter (products_like db category) restrictions)
    as [|p ps] eqn:Hps; [discriminate|].
  injection H as <-. apply in_map_iff in Hin. destruct Hin as [q [<- Hq]].
  split; [|reflexivity]. cbn [product]. exact (take_In _ _ _ Hq).
Qed.

End Outcomes.

(** C3 on the menu: asked for a vegan burger, with nothing vegan on the
    menu, the function answers with the notice alone. *)
Lemma no_match_when_filter_empties_witness :
  let db := Menu.session [Menu.garden_bowl; Menu.classic_burger; Menu.plain_fries] in
  let answer :=
    RecommendationEngine.get_personalized_recommendations None db "a vegan burger" 3 in
  map RecommendationEngine.Recommendation.product_id answer = ["no_match"]
  /\ map RecommendationEngine.Recommendation.description answer
     = ["Sorry, no products match your vegetarian, vegan requirements."]
  /\ answer <> [].
Proof.
  cbv zeta.
  destruct (no_match_when_filter_empties None
              (Menu.session [Menu.garden_bowl; Menu.classic_burger; Menu.plain_fries])
              "a vegan burger" 3) as [Hout [Hne _]].
  - left. discriminate.
  - vm_compute. reflexivity.
  - rewrite Hout. split; [|split]; [vm_compute; reflexivity .. | discriminate].
Defined.

(** The hint is what the first matching pattern reads: a message with an
    "under" phrase has the hint "under X", X being the number of the
    leftmost such phrase, whatever else the message says. *)
Lemma under_phrase_sets_hint (message digits : string) :
  re_search {| literal := "under "; dollar_required := false |} (lower message)
  = Some digits ->
  RecommendationEngine.budget
    (RecommendationEngine.extract_food_preferences_from_message message)
  = Some (Under (float_of_digits digits)).
Proof.
  intros H. unfold RecommendationEngine.extract_food_preferences_from_message.
  cbn [RecommendationEngine.budget RecommendationEngine.price_patterns
       RecommendationEngine.budget_of_message].
  rewrite H. reflexivity.
Qed.

(** Likewise a message with an "around" phrase and no "under", "below"
    or "less than" phrase has the hint "around X". *)
Lemma around_phrase_sets_hint (message digits : string) :
  re_search {| literal := "under "; dollar_required := false |} (lower message) = None ->
  re_search {| literal := "below "; dollar_required := false |} (lower message) = None ->
  re_search {| literal := "less than "; dollar_required := false |} (lower message)
  = None ->
  re_search {| literal := "around "; dollar_required := false |} (lower message)
  = Some digits ->
  RecommendationEngine.budget
    (RecommendationEngine.extract_food_preferences_from_message message)
  = Some (Around (float_of_digits digits)).
Proof.
  intros Hunder Hbelow Hless Haround.
  unfold RecommendationEngine.extract_food_preferences_from_message.
  cbn [RecommendationEngine.budget RecommendationEngine.price_patterns
       RecommendationEngine.budget_of_message].
  rewrite Hunder, Hbelow, Hless, Haround. reflexivity.
Qed.

(** C10 on the menu: "a burger under $10" is answered on the primary path
    with the one burger that costs no more than 10; "something around $10"
    with the products priced from 8 to 12. *)
Lemma budget_hint_filters_primary_witness :
  let db := Menu.session [Menu.garden_bowl; Menu.classic_burger; Menu.plain_fries;
                          Menu.new_burger] in
  (forall rec,
      In rec (RecommendationEngine.get_personalized_recommendations
                None db "a burger under $10" 3) ->
      exists p, RecommendationEngine.Recommendation.price rec = Float p
                /\ (p <=? 10)%float = true)
  /\ map RecommendationEngine.Recommendation.product_id
         (RecommendationEngine.get_personalized_recommendations
            None db "a burger under $10" 3) = ["BR002"]
  /\ map RecommendationEngine.Recommendation.product_id
         (RecommendationEngine.get_personalized_recommendations
            None db "something around $10" 3) = ["BR001"; "SH001"; "BR002"].
Proof.
  cbv zeta. split; [|split; vm_compute; reflexivity].
  refine (proj1 (budget_hint_filters_primary None
                   (Menu.session [Menu.garden_bowl; Menu.classic_burger;
                                  Menu.plain_fries; Menu.new_burger])
                   "a burger under $10" 3 _ _) 10%float _).
  - vm_compute. reflexivity.
  - vm_compute. reflexivity.
Defined.

(** C5 at a product of popularity 0. Asked for "a burger under $5", the
    ranking is empty, both burgers costing more, and the fallback answers.
    The Smash Burger has the popularity 0, which is a popularity that is
    set; its fallback score is 70, that is 50 + 20, and not 0 + 20: the
    [or] of the source takes 0 for a missing value. *)
Lemma fallback_score_of_popularity_zero :
  let db := Menu.session [Menu.classic_burger; Menu.new_burger] in
  let answer :=
    RecommendationEngine.get_personalized_recommendations None db "a burger under $5" 3 in
  (exists replaced,
      RecommendationEngine.recommend None db "a burger under $5" 3
      = RecommendationEngine.Fallback replaced)
  /\ map (fun rec => (RecommendationEngine.Recommendation.product_id rec,
                      RecommendationEngine.Recommendation.popularity_score rec,
                      RecommendationEngine.Recommendation.recommendation_score rec))
         answer
     = [("BR001", Some 85, Int 105); ("BR002", Some 0, Int 70)]
  /\ or_int (Some 0) 50 + 20 <> 0 + 20.
Proof.
  cbv zeta. split; [|split].
  - eexists. vm_compute. reflexivity.
  - vm_compute. reflexivity.
  - vm_compute. discriminate.
Qed.

(** C6 at the label "Vegetarian". The burger, untagged and described as
    beef, is dropped under "vegetarian" and kept under "Vegetarian": the
    tag test lowers the label, but the table of excluded terms and the
    rule for untagged products read the label as typed. *)
Lemma strict_filter_reads_label_case :
  RecommendationEngine._strict_dietary_filter [Menu.classic_burger] ["vegetarian"] = []
  /\ RecommendationEngine._strict_dietary_filter [Menu.classic_burger] ["Vegetarian"]
     = [Menu.classic_burger]
  /\ dict_get RecommendationEngine.dietary_exclusions "Vegetarian" [] = []
  /\ mem "Vegetarian" ["vegetarian"; "vegan"] = false.
Proof.
  repeat split; vm_compute; reflexivity.
Qed.

(** *** The budget fit *)

(** C7. For a product priced 12, the budget-fit sub-score is 80 under the
    hint "under $10" and 90 under the hint "around $10", whether the hint
    is given as such or read from a message; the sub-score enters the
    total with the weight 0.05. *)
Theorem budget_fit_of_12_against_10 (product : Product.t) (conversation : Conversation.t) :
  Product.price product = 12%float ->
  RecommendationEngine.budget_score product (Some (Under 10)) = 80%float
  /\ RecommendationEngine.budget_score product (Some (Around 10)) = 90%float
  /\ RecommendationEngine.budget_score product
       (RecommendationEngine.active_budget
          (RecommendationEngine.extract_food_preferences_from_message "under $10")
          conversation) = 80%float
  /\ RecommendationEngine.budget_score product
       (RecommendationEngine.active_budget
          (RecommendationEngine.extract_food_preferences_from_message "around $10")
          conversation) = 90%float
  /\ (80 = 100 - (12 - 10) * 10)%float
  /\ (90 = 100 - PrimFloat.abs (12 - 10) * 5)%float
  /\ RecommendationEngine.recommendation_weights_budget_fit = 0.05%float.
Proof.
  intros Hprice.
  assert (Hunder : RecommendationEngine.budget
                     (RecommendationEngine.extract_food_preferences_from_message
                        "under $10") = Some (Under 10))
    by (vm_compute; reflexivity).
  assert (Haround : RecommendationEngine.budget
                      (RecommendationEngine.extract_food_preferences_from_message
                         "around $10") = Some (Around 10))
    by (vm_compute; reflexivity).
  unfold RecommendationEngine.active_budget. rewrite Hunder, Haround.
  unfold RecommendationEngine.budget_score. rewrite Hprice.
  repeat split; vm_compute; reflexivity.
Qed.

(** C7 on the Classic Burger, which costs 12. *)
Lemma budget_fit_of_12_against_10_witness :
  Product.price Menu.classic_burger = 12%float
  /\ RecommendationEngine.budget_score Menu.classic_burger (Some (Under 10)) = 80%float
  /\ RecommendationEngine.budget_score Menu.classic_burger (Some (Around 10)) = 90%float.
Proof.
  split; [reflexivity|].
  destruct (budget_fit_of_12_against_10 Menu.classic_burger
              Menu.spicy_vegan_row eq_refl)
    as [Hunder [Haround _]].
  split; assumption.
Defined.

(* ================================================================= *)
(** ** Further properties of the conversation service *)

Lemma add_missing_NoDup (new acc : list string) :
  NoDup acc -> NoDup (add_missing acc new).
Proof.
  unfold add_missing. revert acc.
  induction new as [|x new IH]; intros acc Hacc; cbn [fold_left]; [exact Hacc|].
  destruct (mem x acc) eqn:Hx; apply IH; [exact Hacc|].
  apply NoDup_app; [assumption | repeat constructor; intros []|].
  intros y Hy [<- | []]. apply mem_false_not_In in Hx. contradiction.
Qed.


Section ServiceExtras.
Import ConversationService.

(** X1. The raw delta of a message is never below -50, the three negative
    weights together, and never above 123, the eight positive weights
    together; both ends are reached. *)
Theorem raw_delta_bounds :
  (forall message, -50 <= fst (_calculate_interest_score_change message) <= 123)
  /\ hesitation + budget_concern + rejection = -50
  /\ specific_preferences + dietary_restrictions + budget_mention + mood_indication
     + question_asking + enthusiasm_words + price_inquiry + order_intent = 123
  /\ fst (_calculate_interest_score_change "maybe too cheap, pass") = -50
  /\ fst (_calculate_interest_score_change
            "i love spicy vegan comfort food under $10, how much? i'll take it") = 123.
Proof.
  split; [|repeat split; vm_compute; reflexivity].
  intros message. rewrite score_change_is_sum_of_weights. cbv zeta.
  unfold specific_preferences, dietary_restrictions, budget_mention, mood_indication,
    question_asking, enthusiasm_words, price_inquiry, order_intent, hesitation,
    budget_concern, rejection.
  repeat match goal with
         | |- context [if ?b then _ else _] => destruct b
         end; lia.
Qed.


End ServiceExtras.

(* ================================================================= *)
(** ** Further properties of the dietary filter *)

Lemma filter_twice {A : Type} (f g : A -> bool) (l : list A) :
  filter g (filter f l) = filter (fun x => f x && g x) l.
Proof.
  induction l as [|x l IH]; cbn [filter]; [reflexivity|].
  destruct (f x); cbn [filter andb]; [destruct (g x)|]; now rewrite IH.
Qed.

Lemma filter_all {A : Type} (f : A -> bool) (l : list A) :
  (forall x, In x l -> f x = true) -> filter f l = l.
Proof.
  induction l as [|x l IH]; intros H; cbn [filter]; [reflexivity|].
  rewrite (H x) by now left. f_equal. apply IH. intros y Hy. apply H. now right.
Qed.

Section FilterExtras.
Import RecommendationEngine.

Lemma strict_filter_as_filter (products : list Product.t) (restrictions : list string) :
  _strict_dietary_filter products restrictions
  = filter (fun product => is_suitable product restrictions) products.
Proof.
  unfold _strict_dietary_filter. destruct restrictions as [|r rest]; [|reflexivity].
  symmetry. now apply filter_all.
Qed.

Lemma is_suitable_app (product : Product.t) (first second : list string) :
  is_suitable product (first ++ second)
  = is_suitable product first && is_suitable product second.
Proof.
  induction first as [|r first IH]; cbn [app is_suitable]; [reflexivity|].
  now destruct (suits_restriction product r).
Qed.

(** X5. Filtering under one list of restrictions and then under another
    is filtering once under both; so filtering twice under the same list
    changes nothing more, and two lists with the same labels, in whatever
    order and number, filter alike. *)
Theorem strict_filter_composes (products : list Product.t) (first second : list string) :
  _strict_dietary_filter (_strict_dietary_filter products first) second
  = _strict_dietary_filter products (first ++ second)
  /\ _strict_dietary_filter (_strict_dietary_filter products first) first
     = _strict_dietary_filter products first
  /\ ((forall r, In r first <-> In r second) ->
      _strict_dietary_filter products first = _strict_dietary_filter products second).
Proof.
  rewrite !strict_filter_as_filter. split; [|split].
  - rewrite filter_twice. apply filter_ext. intros p. now rewrite is_suitable_app.
  - rewrite filter_twice. apply filter_ext. intros p.
    now destruct (is_suitable p first).
  - intros Hsame. apply filter_ext. intros p.
    destruct (is_suitable p first) eqn:Hf; destruct (is_suitable p second) eqn:Hs;
      try reflexivity.
    + rewrite is_suitable_all in Hf.
      assert (Hs' : is_suitable p second = true)
        by (apply is_suitable_all; intros r Hr; apply Hf, Hsame, Hr).
      congruence.
    + rewrite is_suitable_all in Hs.
      assert (Hf' : is_suitable p first = true)
        by (apply is_suitable_all; intros r Hr; apply Hs, Hsame, Hr).
      congruence.
Qed.

(** X6. A tag decides alone: a product that carries, in whatever case, a
    tag for each restriction is kept, whatever its name, description and
    ingredients contain. *)
Theorem tagged_product_is_kept (products : list Product.t) (restrictions : list string)
        (product : Product.t) :
  In product products ->
  (forall r, In r restrictions ->
             exists tag, In tag (or_nil (Product.dietary_tags product))
                         /\ lower tag = lower r) ->
  In product (_strict_dietary_filter products restrictions).
Proof.
  intros Hin Htags. rewrite strict_filter_as_filter. apply filter_In.
  split; [assumption|]. apply is_suitable_all. intros r Hr.
  apply tagged_suits, mem_In. unfold product_dietary_tags.
  destruct (Htags r Hr) as [tag [Htag Heq]].
  apply in_map_iff. now exists tag.
Qed.

Lemma dict_get_unknown {V : Type} (d : list (string * V)) (key : string) (default : V) :
  ~ In key (map fst d) -> dict_get d key default = default.
Proof.
  induction d as [|[k v] d IH]; cbn [dict_get map fst In]; [reflexivity|].
  intros H. destruct (String.eqb k key) eqn:Hk.
  - apply String.eqb_eq in Hk. elim H. now left.
  - apply IH. intros Hin. apply H. now right.
Qed.

(** X7. A label that is not a key of the table of excluded terms, as
    typed, filters nothing: under such labels alone every product is kept.
    The labels "halal", "kosher", "allergic", which the conversation
    service records as restrictions, are of this kind. *)
Theorem unknown_labels_filter_nothing (products : list Product.t)
        (restrictions : list string) :
  (forall r, In r restrictions -> ~ In r (map fst dietary_exclusions)) ->
  _strict_dietary_filter products restrictions = products.
Proof.
  intros Hunknown. rewrite strict_filter_as_filter. apply filter_all.
  intros p _. apply is_suitable_all. intros r Hr.
  specialize (Hunknown r Hr). unfold suits_restriction.
  rewrite (dict_get_unknown _ _ _ Hunknown).
  assert (Hstrict : mem r ["vegetarian"; "vegan"] = false).
  { apply mem_false_not_In. intros [<- | [<- | []]]; apply Hunknown; cbn; auto. }
  rewrite Hstrict. cbn. now destruct (mem (lower r) (product_dietary_tags p)).
Qed.

End FilterExtras.

(** X6 on the menu: the Beefless Burger, tagged "Vegan" and "Vegetarian",
    is kept under "vegetarian" and "vegan" although its description
    contains "beef". *)
Lemma tagged_product_is_kept_witness :
  contains "beef" (RecommendationEngine.product_text Menu.beefless_burger) = true
  /\ In Menu.beefless_burger
        (RecommendationEngine._strict_dietary_filter
           [Menu.classic_burger; Menu.beefless_burger] ["vegetarian"; "vegan"]).
Proof.
  split; [vm_compute; reflexivity|].
  apply tagged_product_is_kept.
  - right. now left.
  - intros r [<- | [<- | []]].
    + exists "Vegetarian". split; [cbn; auto | reflexivity].
    + exists "Vegan". split; [cbn; auto | reflexivity].
Defined.

(** X7 on the menu: "halal", "kosher" and "Vegan" with a capital keep the
    beef burger and the fries. *)
Lemma unknown_labels_filter_nothing_witness :
  RecommendationEngine._strict_dietary_filter
    [Menu.classic_burger; Menu.plain_fries] ["halal"; "kosher"; "Vegan"]
  = [Menu.classic_burger; Menu.plain_fries].
Proof.
  apply unknown_labels_filter_nothing.
  intros r [<- | [<- | [<- | []]]]; cbn;
    intros H; repeat destruct H as [H | H]; try discriminate H; exact H.
Defined.

(* ================================================================= *)
(** ** Further properties of the ranking *)

Lemma ltb_irrefl (x : float) : (x <? x)%float = false.
Proof.
  rewrite ltb_spec. unfold SFltb.
  destruct (Prim2SF x) as [s | s | | s m e]; cbn [SFcompare].
  - reflexivity.
  - now destruct s.
  - reflexivity.
  - destruct s; rewrite Z.compare_refl;
      change (Pos.compare_cont Eq m m) with (Pos.compare m m);
      now rewrite Pos.compare_refl.
Qed.

Lemma insert_desc_Permutation {A : Type} (key : A -> float) (x : A) (l : list A) :
  Permutation (insert_desc key x l) (x :: l).
Proof.
  induction l as [|y l IH]; cbn [insert_desc]; [reflexivity|].
  destruct (key x <? key y)%float; [|reflexivity].
  rewrite IH. apply perm_swap.
Qed.

Lemma sort_desc_Permutation {A : Type} (key : A -> float) (l : list A) :
  Permutation (sort_desc key l) l.
Proof.
  unfold sort_desc. induction l as [|x l IH]; cbn [fold_right]; [reflexivity|].
  rewrite insert_desc_Permutation. now constructor.
Qed.

Lemma sort_desc_ties {A : Type} (key : A -> float) (l : list A) :
  (forall x y, In x l -> In y l -> (key x <? key y)%float = false) ->
  sort_desc key l = l.
Proof.
  unfold sort_desc. induction l as [|x l IH]; intros Hties; cbn [fold_right];
    [reflexivity|].
  rewrite IH by (intros a b Ha Hb; apply Hties; now right).
  destruct l as [|y l]; cbn [insert_desc]; [reflexivity|].
  rewrite Hties; [reflexivity | now left | right; now left].
Qed.

Lemma take_length {A : Type} (limit : Z) (l : list A) :
  0 <= limit -> (List.length (take limit l) <= Z.to_nat limit)%nat.
Proof.
  intros H. unfold take. apply Z.leb_le in H. rewrite H. apply firstn_le_length.
Qed.

Lemma take_all {A : Type} (limit : Z) (l : list A) :
  Z.of_nat (List.length l) <= limit -> take limit l = l.
Proof.
  intros H. unfold take.
  assert (Hpos : (0 <=? limit) = true) by (apply Z.leb_le; lia).
  rewrite Hpos. apply firstn_all2. lia.
Qed.

Lemma take_map {A B : Type} (f : A -> B) (limit : Z) (l : list A) :
  map f (take limit l) = take limit (map f l).
Proof.
  unfold take. rewrite length_map. destruct (0 <=? limit); symmetry; apply firstn_map.
Qed.

Lemma take_nonempty {A : Type} (limit : Z) (l : list A) :
  0 < limit -> l <> [] -> take limit l <> [].
Proof.
  intros Hlimit Hl. unfold take.
  assert (Hpos : (0 <=? limit) = true) by (apply Z.leb_le; lia).
  rewrite Hpos. destruct l as [|x l]; [now elim Hl|].
  destruct (Z.to_nat limit) eqn:Hn; [lia | discriminate].
Qed.

Section RankingExtras.
Import RecommendationEngine.

Variable conversation : option Conversation.t.
Variable current_preferences : Preferences.
Variable restrictions : list string.

Lemma filter_by_category_incl (products : list Product.t) (p : Product.t) :
  In p (filter_by_category current_preferences products) -> In p products.
Proof.
  unfold filter_by_category.
  destruct (categories current_preferences) as [|c cs]; [auto|].
  destruct (filter _ products) as [|q qs] eqn:Hf; [auto|].
  intros H. rewrite <- Hf in H. now apply filter_In in H.
Qed.

Lemma filter_by_budget_incl (products : list Product.t) (p : Product.t) :
  In p (filter_by_budget current_preferences products) -> In p products.
Proof.
  unfold filter_by_budget.
  destruct (budget current_preferences) as [[X | X |]|]; auto;
    intros H; now apply filter_In in H.
Qed.

(** X8. Naming a category never empties the candidates: when no product
    matches a named category, all products stay.  Hence, without a budget
    hint and with a positive limit, the ranking of a non-empty list of
    compliant products is not empty. *)
Theorem category_never_empties (products : list Product.t) (limit : Z) :
  (filter_by_category current_preferences products = [] <-> products = [])
  /\ (budget current_preferences = None -> 0 < limit -> products <> [] ->
      ranked products conversation current_preferences restrictions limit <> []).
Proof.
  assert (Hcat : filter_by_category current_preferences products = []
                 <-> products = []).
  { unfold filter_by_category.
    destruct (categories current_preferences) as [|c cs]; [reflexivity|].
    destruct (filter _ products) as [|q qs] eqn:Hf; [reflexivity|].
    split; [discriminate|]. intros ->. discriminate. }
  split; [exact Hcat|].
  intros Hbudget Hlimit Hproducts. unfold ranked.
  apply take_nonempty; [assumption|].
  unfold filter_by_budget. rewrite Hbudget.
  destruct (filter_by_category current_preferences products) as [|p ps] eqn:Hps.
  - elim Hproducts. now apply Hcat.
  - cbn [map]. unfold sort_desc. cbn [fold_right].
    match goal with
    | |- insert_desc ?k ?x ?l <> [] => destruct l; cbn [insert_desc]
    end; [discriminate|].
    match goal with
    | |- (if ?b then _ else _) <> [] => destruct b; discriminate
    end.
Qed.

(** X9. With a limit that covers them, the ranked products are the
    products that passed the category and budget filters, rearranged: the
    ranking drops none, repeats none and adds none. *)
Theorem ranking_is_rearrangement (products : list Product.t) (limit : Z) :
  Z.of_nat (List.length (filter_by_budget current_preferences
                           (filter_by_category current_preferences products)))
  <= limit ->
  Permutation
    (map product (ranked products conversation current_preferences restrictions limit))
    (filter_by_budget current_preferences
       (filter_by_category current_preferences products)).
Proof.
  intros Hlimit. unfold ranked.
  rewrite take_all.
  - rewrite sort_desc_Permutation, map_map. cbn [product]. now rewrite map_id.
  - rewrite (Permutation_length (sort_desc_Permutation _ _)), length_map. exact Hlimit.
Qed.

(** X10. Products that score alike are ranked in the order of the
    catalogue: if no two of the products that reach the scoring differ in
    score, the ranking lists them as they came, cut at the limit. *)
Theorem equal_scores_keep_order (products : list Product.t) (limit : Z) :
  let candidates :=
    filter_by_budget current_preferences
                     (filter_by_category current_preferences products) in
  (forall p q, In p candidates -> In q candidates ->
               _calculate_recommendation_score p conversation current_preferences
               = _calculate_recommendation_score q conversation current_preferences) ->
  map product (ranked products conversation current_preferences restrictions limit)
  = take limit candidates.
Proof.
  cbv zeta. intros Hequal. unfold ranked.
  rewrite sort_desc_ties.
  - rewrite take_map, map_map. cbn [product]. now rewrite map_id.
  - intros x y Hx Hy. apply in_map_iff in Hx, Hy.
    destruct Hx as [p [<- Hp]]. destruct Hy as [q [<- Hq]].
    unfold score_key. cbn [score]. rewrite (Hequal p q Hp Hq).
    apply ltb_irrefl.
Qed.

(** X11. Under a hint "under X" read from the message, every ranked
    product has the full budget fit 100: the products over the budget
    were filtered out before, so the decay of the budget fit never shows
    on this path. *)
Theorem under_hint_saturates_budget_fit (products : list Product.t) (limit : Z)
        (X : float) :
  budget current_preferences = Some (Under X) ->
  forall rec row,
    In rec (ranked products conversation current_preferences restrictions limit) ->
    budget_score (product rec) (active_budget current_preferences row) = 100%float.
Proof.
  intros Hbudget rec row Hin. unfold ranked in Hin.
  apply take_In, sort_desc_In, in_map_iff in Hin.
  destruct Hin as [p [<- Hp]]. cbn [product].
  unfold filter_by_budget in Hp. rewrite Hbudget in Hp.
  apply filter_In in Hp. destruct Hp as [_ Hprice].
  unfold active_budget, budget_score. rewrite Hbudget, Hprice. reflexivity.
Qed.

End RankingExtras.

(** X9 on the menu: "hello" names no category and no budget; the three
    products are all ranked. *)
Lemma ranking_is_rearrangement_witness :
  Permutation
    (map RecommendationEngine.product
         (RecommendationEngine.ranked
            [Menu.garden_bowl; Menu.classic_burger; Menu.plain_fries] None
            (RecommendationEngine.extract_food_preferences_from_message "hello") [] 5))
    [Menu.garden_bowl; Menu.classic_burger; Menu.plain_fries].
Proof.
  apply (ranking_is_rearrangement None
           (RecommendationEngine.extract_food_preferences_from_message "hello") []
           [Menu.garden_bowl; Menu.classic_burger; Menu.plain_fries] 5).
  vm_compute. discriminate.
Defined.

(** X10 on the menu: the Green Wrap and the Bean Taco score alike for
    "something nice" and are ranked as listed, in either order. *)
Lemma equal_scores_keep_order_witness :
  let prefs := RecommendationEngine.extract_food_preferences_from_message
                 "something nice" in
  map RecommendationEngine.product
      (RecommendationEngine.ranked [Menu.vegan_wrap; Menu.bean_taco] None prefs [] 3)
  = [Menu.vegan_wrap; Menu.bean_taco]
  /\ map RecommendationEngine.product
         (RecommendationEngine.ranked [Menu.bean_taco; Menu.vegan_wrap] None prefs [] 3)
     = [Menu.bean_taco; Menu.vegan_wrap].
Proof.
  cbv zeta. split.
  - apply (equal_scores_keep_order None
             (RecommendationEngine.extract_food_preferences_from_message "something nice")
             [] [Menu.vegan_wrap; Menu.bean_taco] 3).
    intros p q Hp Hq. vm_compute in Hp, Hq.
    destruct Hp as [<- | [<- | []]]; destruct Hq as [<- | [<- | []]];
      vm_compute; reflexivity.
  - apply (equal_scores_keep_order None
             (RecommendationEngine.extract_food_preferences_from_message "something nice")
             [] [Menu.bean_taco; Menu.vegan_wrap] 3).
    intros p q Hp Hq. vm_compute in Hp, Hq.
    destruct Hp as [<- | [<- | []]]; destruct Hq as [<- | [<- | []]];
      vm_compute; reflexivity.
Defined.

(** X11 on the menu: for "a burger under $10" every ranked product has
    the budget fit 100. *)
Lemma under_hint_saturates_budget_fit_witness :
  let prefs := RecommendationEngine.extract_food_preferences_from_message
                 "a burger under $10" in
  RecommendationEngine.budget prefs = Some (Under 10)
  /\ forall rec row,
      In rec (RecommendationEngine.ranked [Menu.classic_burger; Menu.new_burger]
                                          None prefs [] 3) ->
      RecommendationEngine.budget_score (RecommendationEngine.product rec)
        (RecommendationEngine.active_budget prefs row) = 100%float.
Proof.
  cbv zeta. split; [vm_compute; reflexivity|].
  apply (under_hint_saturates_budget_fit None
           (RecommendationEngine.extract_food_preferences_from_message
              "a burger under $10")
           [] [Menu.classic_burger; Menu.new_burger] 3 10%float).
  vm_compute. reflexivity.
Defined.

(* ================================================================= *)
(** ** Further properties of [get_personalized_recommendations] *)

Section AnswerExtras.
Import RecommendationEngine.

Variable conversation : option Conversation.t.
Variable db : Session.
Variable current_message : string.
Variable limit : Z.

Let current_preferences := extract_food_preferences_from_message current_message.
Let restrictions := all_dietary_restrictions current_preferences conversation.

Let compliant :=
  match restrictions with
  | [] => all_products db
  | _ => _strict_dietary_filter (all_products db) restrictions
  end.

Let top := ranked compliant conversation current_preferences restrictions limit.

Lemma recommend_fallback (replaced : list Candidate) :
  recommend conversation db current_message limit = Fallback replaced ->
  fallback_wanted top = true
  /\ exists category others,
      categories current_preferences = category :: others
      /\ fallback db category restrictions limit = Some replaced.
Proof.
  unfold recommend. fold current_preferences. fold restrictions.
  fold compliant. fold top.
  assert (Hrank :
            (if fallback_wanted top
             then match categories current_preferences with
                  | [] => Primary top
                  | category :: _ =>
                      match fallback db category restrictions limit with
                      | Some found => Fallback found
                      | None => Primary top
                      end
                  end
             else Primary top) = Fallback replaced ->
            fallback_wanted top = true
            /\ exists category others,
                categories current_preferences = category :: others
                /\ fallback db category restrictions limit = Some replaced).
  { destruct (fallback_wanted top); [|discriminate].
    destruct (categories current_preferences) as [|category others]; [discriminate|].
    destruct (fallback db category restrictions limit) as [found|] eqn:Hfound;
      [|discriminate].
    intros H. injection H as <-. split; [reflexivity|].
    exists category, others. now split. }
  destruct restrictions as [|r rest] eqn:Hr; [exact Hrank|].
  destruct compliant; [discriminate | exact Hrank].
Qed.

Lemma recommend_no_match_inv (labels : list string) :
  recommend conversation db current_message limit = NoMatch labels ->
  labels = restrictions /\ restrictions <> []
  /\ _strict_dietary_filter (all_products db) restrictions = [].
Proof.
  unfold recommend. fold current_preferences. fold restrictions.
  fold compliant. fold top.
  destruct restrictions as [|r rest] eqn:Hr.
  - destruct (fallback_wanted top); [|discriminate].
    destruct (categories current_preferences) as [|category others]; [discriminate|].
    destruct (fallback db category [] limit); discriminate.
  - unfold compliant.
    destruct (_strict_dietary_filter (all_products db) (r :: rest)) eqn:Hf.
    + intros H. injection H as <-. repeat split. discriminate.
    + destruct (fallback_wanted _); [|discriminate].
      destruct (categories current_preferences) as [|category others]; [discriminate|].
      destruct (fallback db category (r :: rest) limit); discriminate.
Qed.

Lemma compliant_products (p : Product.t) :
  In p compliant -> In p (all_products db) /\ is_suitable p restrictions = true.
Proof.
  unfold compliant. destruct restrictions as [|r rest] eqn:Hr.
  - intros H. now split.
  - intros H. apply filter_In in H. exact H.
Qed.

Lemma primary_complies (answer : list Candidate) (rec : Candidate) :
  recommend conversation db current_message limit = Primary answer ->
  In rec answer ->
  In (product rec) (all_products db) /\ is_suitable (product rec) restrictions = true.
Proof.
  intros Hprimary Hin.
  rewrite (recommend_primary _ _ _ _ _ Hprimary) in Hin.
  apply ranked_passed_budget, filter_by_budget_incl, filter_by_category_incl in Hin.
  now apply compliant_products.
Qed.

Lemma fallback_complies (answer : list Candidate) (rec : Candidate) :
  recommend conversation db current_message limit = Fallback answer ->
  In rec answer ->
  (exists category, In category (categories current_preferences)
                    /\ In (product rec) (products_like db category))
  /\ is_suitable (product rec) restrictions = true.
Proof.
  intros Hfallback Hin.
  destruct (recommend_fallback _ Hfallback) as [_ [category [others [Hcat Hfound]]]].
  destruct (fallback_candidates _ _ _ _ _ _ Hfound rec Hin) as [Hkept _].
  fold current_preferences in Hkept. fold restrictions in Hkept.
  rewrite strict_filter_as_filter in Hkept. apply filter_In in Hkept.
  split; [|apply Hkept].
  exists category. split; [rewrite Hcat; now left | apply Hkept].
Qed.

(** X12. Whatever the way out, no product that fails a restriction is
    recommended: on the primary path every candidate is a product of the
    catalogue that suits every restriction of the message and of the
    conversation; on the fallback path every candidate is a product of
    the query for a named category that suits them all; and the notice
    is given only when no product of the catalogue suits them. *)
Theorem recommendations_comply :
  match recommend conversation db current_message limit with
  | NoMatch labels =>
      labels = restrictions
      /\ forall p, In p (all_products db) -> is_suitable p restrictions = false
  | Primary answer =>
      forall rec, In rec answer ->
                  In (product rec) (all_products db)
                  /\ is_suitable (product rec) restrictions = true
  | Fallback answer =>
      forall rec, In rec answer ->
                  (exists category, In category (categories current_preferences)
                                    /\ In (product rec) (products_like db category))
                  /\ is_suitable (product rec) restrictions = true
  end.
Proof.
  destruct (recommend conversation db current_message limit) as [labels | answer | answer]
    eqn:Hout.
  - destruct (recommend_no_match_inv _ Hout) as [Hlabels [Hne Hempty]].
    split; [exact Hlabels|]. intros p Hp.
    destruct (is_suitable p restrictions) eqn:Hs; [|reflexivity].
    assert (Hin : In p (_strict_dietary_filter (all_products db) restrictions))
      by (rewrite strict_filter_as_filter; apply filter_In; now split).
    rewrite Hempty in Hin. destruct Hin.
  - intros rec Hin. exact (primary_complies _ _ Hout Hin).
  - intros rec Hin. exact (fallback_complies _ _ Hout Hin).
Qed.

Lemma answer_length :
  0 <= limit ->
  (List.length (get_personalized_recommendations conversation db current_message limit)
   <= Z.to_nat (Z.max 1 limit))%nat.
Proof.
  intros Hlimit. unfold get_personalized_recommendations.
  destruct (recommend conversation db current_message limit) as [labels | answer | answer]
    eqn:Hout.
  - cbn [List.length]. lia.
  - rewrite (recommend_primary _ _ _ _ _ Hout), length_map. unfold ranked.
    etransitivity; [apply take_length, Hlimit | lia].
  - destruct (recommend_fallback _ Hout) as [_ [category [others [_ Hfound]]]].
    rewrite length_map. unfold fallback in Hfound.
    destruct (match restrictions with
              | [] => products_like db category
              | _ :: _ => _strict_dietary_filter (products_like db category) restrictions
              end) as [|p ps]; [discriminate|].
    injection Hfound as <-. rewrite length_map.
    etransitivity; [apply take_length, Hlimit | lia].
Qed.

(** X13. For a limit of 0 or more, the function returns at most [limit]
    entries, or the notice alone. *)
Theorem answer_within_limit :
  0 <= limit ->
  (List.length (get_personalized_recommendations conversation db current_message limit)
   <= Z.to_nat limit)%nat
  \/ exists labels,
      get_personalized_recommendations conversation db current_message limit
      = [no_match labels].
Proof.
  intros Hlimit.
  destruct (recommend conversation db current_message limit) as [labels | answer | answer]
    eqn:Hout.
  - right. exists labels. unfold get_personalized_recommendations. now rewrite Hout.
  - left. unfold get_personalized_recommendations. rewrite Hout.
    rewrite (recommend_primary _ _ _ _ _ Hout), length_map. unfold ranked.
    apply take_length, Hlimit.
  - left. unfold get_personalized_recommendations. rewrite Hout.
    destruct (recommend_fallback _ Hout) as [_ [category [others [_ Hfound]]]].
    rewrite length_map. unfold fallback in Hfound.
    destruct (match restrictions with
              | [] => products_like db category
              | _ :: _ => _strict_dietary_filter (products_like db category) restrictions
              end) as [|p ps]; [discriminate|].
    injection Hfound as <-. rewrite length_map. apply take_length, Hlimit.
Qed.

(** X14. Every entry returned carries at most three reasons. *)
Theorem at_most_three_reasons :
  forall entry,
    In entry (get_personalized_recommendations conversation db current_message limit) ->
    (List.length (Recommendation.reasons entry) <= 3)%nat.
Proof.
  intros entry. unfold get_personalized_recommendations.
  destruct (recommend conversation db current_message limit) as [labels | answer | answer]
    eqn:Hout.
  - intros [<- | []]. cbn. lia.
  - rewrite (recommend_primary _ _ _ _ _ Hout). intros Hin.
    apply in_map_iff in Hin. destruct Hin as [rec [<- Hrec]].
    unfold ranked in Hrec. apply take_In, sort_desc_In, in_map_iff in Hrec.
    destruct Hrec as [p [<- _]]. cbn [format Recommendation.reasons reasons].
    unfold _get_recommendation_reasons. apply firstn_le_length.
  - destruct (recommend_fallback _ Hout) as [_ [category [others [_ Hfound]]]].
    intros Hin. apply in_map_iff in Hin. destruct Hin as [rec [<- Hrec]].
    unfold fallback in Hfound.
    destruct (match restrictions with
              | [] => products_like db category
              | _ :: _ => _strict_dietary_filter (products_like db category) restrictions
              end) as [|p ps]; [discriminate|].
    injection Hfound as <-. apply in_map_iff in Hrec.
    destruct Hrec as [q [<- _]]. cbn. lia.
Qed.

(** X15. A message that names no category is never answered from the
    fallback: the answer is the notice or the ranking as it stands, be it
    empty or wholly below 30. *)
Theorem no_category_no_fallback :
  categories current_preferences = [] ->
  recommend conversation db current_message limit = NoMatch restrictions
  \/ recommend conversation db current_message limit = Primary top.
Proof.
  intros Hnone.
  destruct (recommend conversation db current_message limit) as [labels | answer | answer]
    eqn:Hout.
  - left. destruct (recommend_no_match_inv _ Hout) as [-> _]. reflexivity.
  - right. now rewrite (recommend_primary _ _ _ _ _ Hout).
  - destruct (recommend_fallback _ Hout) as [_ [category [others [Hcat _]]]].
    rewrite Hnone in Hcat. discriminate.
Qed.

End AnswerExtras.

(** X13 on the menu: with the limit 1, "something nice" is answered with
    one entry. *)
Lemma answer_within_limit_witness :
  let answer :=
    RecommendationEngine.get_personalized_recommendations
      None (Menu.session [Menu.garden_bowl; Menu.classic_burger; Menu.plain_fries])
      "something nice" 1 in
  (List.length answer <= 1)%nat
  /\ map RecommendationEngine.Recommendation.product_id answer = ["BR001"].
Proof.
  cbv zeta. split; [|vm_compute; reflexivity].
  destruct (answer_within_limit None
              (Menu.session [Menu.garden_bowl; Menu.classic_burger; Menu.plain_fries])
              "something nice" 1) as [Hshort | [labels Hnotice]].
  - lia.
  - exact Hshort.
  - vm_compute in Hnotice. discriminate Hnotice.
Defined.

(** X15 on the menu: "something under $2" names no category; nothing is
    that cheap, and the empty ranking stands. *)
Lemma no_category_no_fallback_witness :
  RecommendationEngine.recommend
    None (Menu.session [Menu.garden_bowl; Menu.classic_burger; Menu.plain_fries])
    "something under $2" 3
  = RecommendationEngine.Primary [].
Proof.
  destruct (no_category_no_fallback None
              (Menu.session [Menu.garden_bowl; Menu.classic_burger; Menu.plain_fries])
              "something under $2" 3) as [Hnotice | Hprimary].
  - vm_compute. reflexivity.
  - vm_compute in Hnotice. discriminate Hnotice.
  - rewrite Hprimary. vm_compute. reflexivity.
Defined.


(* ================================================================= *)
(** ** Further properties of what is read from a message *)

Lemma prefix_split (n s : string) : prefix n s = true -> exists q, s = n ++ q.
Proof.
  revert s. induction n as [|c n IH]; intros s H.
  - now exists s.
  - destruct s as [|d s]; cbn in H; [discriminate|].
    destruct (ascii_dec c d) as [<- | _]; [|discriminate].
    destruct (IH s H) as [q ->]. now exists q.
Qed.

Lemma contains_split (n s : string) :
  contains n s = true -> exists p q, s = p ++ n ++ q.
Proof.
  induction s as [|c s IH]; cbn [contains]; intros H.
  - destruct (prefix n EmptyString) eqn:Hp; [|discriminate].
    destruct (prefix_split _ _ Hp) as [q ->]. now exists EmptyString, q.
  - destruct (prefix n (String c s)) eqn:Hp.
    + destruct (prefix_split _ _ Hp) as [q Hq]. exists EmptyString, q. exact Hq.
    + destruct (IH H) as [p [q ->]]. now exists (String c p), q.
Qed.

Lemma append_assoc (a b c : string) : (a ++ b) ++ c = a ++ (b ++ c).
Proof.
  induction a as [|x a IH]; cbn; [reflexivity | now rewrite IH].
Qed.

Lemma contains_inside (inner outer text : string) :
  contains inner outer = true -> contains outer text = true ->
  contains inner text = true.
Proof.
  intros Hinner Houter.
  destruct (contains_split _ _ Hinner) as [p [q ->]].
  destruct (contains_split _ _ Houter) as [p' [q' ->]].
  rewrite !append_assoc.
  apply contains_append_left, contains_append_left, contains_of_prefix, prefix_append.
Qed.

Lemma keys_hit_In (d : list (string * list string)) (text key : string)
      (keywords : list string) :
  In (key, keywords) d -> any_in keywords text = true -> In key (keys_hit d text).
Proof.
  intros Hin Hany. unfold keys_hit. apply in_map_iff.
  exists (key, keywords). split; [reflexivity|]. apply filter_In. now split.
Qed.

Lemma keys_hit_NoDup (d : list (string * list string)) (text : string) :
  NoDup (map fst d) -> NoDup (keys_hit d text).
Proof.
  unfold keys_hit. induction d as [|[k v] d IH]; cbn [map filter fst snd]; intros H.
  - constructor.
  - inversion H as [|? ? Hk Hd]; subst.
    destruct (any_in v text); [|now apply IH].
    cbn [map fst]. constructor; [|now apply IH].
    intros Hin. apply Hk. apply in_map_iff in Hin. destruct Hin as [[k' v'] [Hk' Hf]].
    apply filter_In in Hf. apply in_map_iff. exists (k', v'). now split.
Qed.

Lemma digit_value_range (c : ascii) : is_digit c = true -> 0 <= digit_value c <= 9.
Proof.
  destruct c as [[] [] [] [] [] [] [] []]; vm_compute; intros H;
    first [discriminate H | split; discriminate].
Qed.

Lemma int_of_digit_run (acc : Z) (s : string) :
  0 <= acc -> 0 <= int_of_digits_from acc (digit_run s).
Proof.
  revert acc. induction s as [|c s IH]; intros acc Hacc; cbn [digit_run].
  - exact Hacc.
  - destruct (is_digit c) eqn:Hc; cbn [int_of_digits_from]; [|exact Hacc].
    apply IH. pose proof (digit_value_range c Hc). lia.
Qed.

Lemma match_here_digits (p : pattern) (s digits : string) :
  match_here p s = Some digits -> exists rest, digits = digit_run rest.
Proof.
  unfold match_here.
  destruct (strip_literal (literal p) s) as [rest|]; [|discriminate].
  assert (Hrun : forall r, match digit_run r with
                           | EmptyString => None
                           | String c d => Some (String c d)
                           end = Some digits -> exists rest, digits = digit_run rest).
  { intros r H. exists r. destruct (digit_run r); [discriminate | congruence]. }
  destruct rest as [|c rest].
  - destruct (dollar_required p); [discriminate | apply Hrun].
  - destruct (Ascii.eqb c "$") eqn:Hc.
    + apply Ascii.eqb_eq in Hc. subst c. apply Hrun.
    + assert (Hother : (if dollar_required p then None
                        else Some (String c rest))
                       = match String c rest with
                         | String "$" t => Some t
                         | _ => if dollar_required p then None else Some (String c rest)
                         end).
      { destruct c as [[] [] [] [] [] [] [] []]; try reflexivity.
        vm_compute in Hc. discriminate Hc. }
      rewrite <- Hother. destruct (dollar_required p); [discriminate | apply Hrun].
Qed.

Lemma re_search_digits (p : pattern) (s digits : string) :
  re_search p s = Some digits -> exists rest, digits = digit_run rest.
Proof.
  induction s as [|c s IH]; cbn [re_search];
    destruct (match_here p _) as [d|] eqn:Hm.
  - intros H. injection H as <-. exact (match_here_digits _ _ _ Hm).
  - discriminate.
  - intros H. injection H as <-. exact (match_here_digits _ _ _ Hm).
  - exact IH.
Qed.

Section MessageExtras.
Import RecommendationEngine.

(** X17. Asking for "vegan" is asking for "vegetarian" too: the keyword
    "veg" of the vegetarian row occurs in "vegan", so a message that
    contains "vegan" in any case yields both restrictions, and no product
    without a vegetarian tag is recommended for it on either path, not
    even one tagged vegan. *)
Theorem vegan_request_is_vegetarian_too (message : string) :
  contains "vegan" (lower message) = true ->
  (In "vegetarian" (dietary (extract_food_preferences_from_message message))
   /\ In "vegan" (dietary (extract_food_preferences_from_message message)))
  /\ forall conversation db limit answer rec,
      (recommend conversation db message limit = Primary answer
       \/ recommend conversation db message limit = Fallback answer) ->
      In rec answer ->
      exists tag, In tag (or_nil (Product.dietary_tags (product rec)))
                  /\ lower tag = "vegetarian".
Proof.
  intros Hvegan.
  assert (Hboth : In "vegetarian" (dietary (extract_food_preferences_from_message message))
                  /\ In "vegan" (dietary (extract_food_preferences_from_message message))).
  { unfold extract_food_preferences_from_message. cbn [dietary]. split.
    - apply keys_hit_In with (keywords := ["vegetarian"; "veg"; "veggie"; "no meat";
                                           "plant-based"]); [now left|].
      unfold any_in. cbn [existsb].
      rewrite (contains_inside "veg" "vegan" _ eq_refl Hvegan).
      now rewrite orb_true_r.
    - apply keys_hit_In with (keywords := ["vegan"; "plant-based"; "no animal products";
                                           "dairy-free and vegetarian"]);
        [right; now left|].
      unfold any_in. cbn [existsb]. now rewrite Hvegan. }
  split; [exact Hboth|].
  intros conversation db limit answer rec Hout Hin.
  assert (Hsuit : is_suitable (product rec)
                    (all_dietary_restrictions
                       (extract_food_preferences_from_message message) conversation)
                  = true).
  { destruct Hout as [Hout | Hout].
    - exact (proj2 (primary_complies _ _ _ _ _ _ Hout Hin)).
    - exact (proj2 (fallback_complies _ _ _ _ _ _ Hout Hin)). }
  rewrite is_suitable_all in Hsuit.
  assert (Hr : In "vegetarian"
                  (all_dietary_restrictions
                     (extract_food_preferences_from_message message) conversation)).
  { unfold all_dietary_restrictions. destruct conversation as [c|]; [|apply Hboth].
    apply add_missing_In. left. apply Hboth. }
  specialize (Hsuit "vegetarian" Hr).
  destruct (mem "vegetarian" (product_dietary_tags (product rec))) eqn:Htag.
  - apply mem_In in Htag. unfold product_dietary_tags in Htag.
    apply in_map_iff in Htag. destruct Htag as [tag [Hlow Htag]]. now exists tag.
  - rewrite (untagged_strict_fails _ "vegetarian" (or_introl eq_refl) Htag) in Hsuit.
    discriminate.
Qed.

(** X18. A budget hint read from a message is "under" or "around" a
    whole number that is not negative: the patterns read digits only, so
    a sign is never read and a decimal part is cut off. *)
Theorem budget_hint_is_whole_number (message : string) (hint : budget_hint) :
  budget (extract_food_preferences_from_message message) = Some hint ->
  exists n, 0 <= n /\ (hint = Under (float_of_Z n) \/ hint = Around (float_of_Z n)).
Proof.
  unfold extract_food_preferences_from_message. cbn [budget].
  generalize (lower message) as text. intros text.
  assert (Hgen : forall patterns,
             budget_of_message patterns text = Some hint ->
             exists n, 0 <= n
                       /\ (hint = Under (float_of_Z n) \/ hint = Around (float_of_Z n))).
  { induction patterns as [|p patterns IH]; cbn [budget_of_message]; [discriminate|].
    destruct (re_search p text) as [digits|] eqn:Hsearch; [|exact IH].
    destruct (re_search_digits _ _ _ Hsearch) as [rest ->].
    intros H. exists (int_of_digits (digit_run rest)).
    split; [apply int_of_digit_run; lia|].
    unfold float_of_digits in H.
    destruct (contains "under" (literal p) || contains "below" (literal p)
              || contains "less than" (literal p));
      injection H as <-; auto. }
  apply Hgen.
Qed.

(** X19. Whenever the engine reads a budget hint from a message, the
    conversation service counts the budget factor for it; the converse
    fails, a bare "$10" earns the factor and gives no hint. *)
Theorem budget_hint_earns_budget_factor :
  (forall message,
      budget (extract_food_preferences_from_message message) <> None ->
      ConversationService.budget_mentioned (lower message) = true)
  /\ (ConversationService.budget_mentioned (lower "$10 is all i have") = true
      /\ budget (extract_food_preferences_from_message "$10 is all i have") = None).
Proof.
  split; [|split; vm_compute; reflexivity].
  intros message. unfold extract_food_preferences_from_message. cbn [budget].
  unfold ConversationService.budget_mentioned, ConversationService.budget_patterns,
    price_patterns.
  generalize (lower message) as text. intros text.
  cbn [budget_of_message existsb].
  repeat match goal with
         | |- context [re_search ?p text] => destruct (re_search p text)
         end; cbn [orb]; intros H; try reflexivity; now elim H.
Qed.

(** X20. The restrictions in force hold no label twice, whatever the
    conversation has recorded: each label of the conversation is added to
    those of the message only if it is not there yet. *)
Theorem restrictions_have_no_duplicates (message : string)
        (conversation : option Conversation.t) :
  NoDup (all_dietary_restrictions (extract_food_preferences_from_message message)
                                  conversation).
Proof.
  assert (Hmessage : NoDup (dietary (extract_food_preferences_from_message message))).
  { unfold extract_food_preferences_from_message. cbn [dietary].
    apply keys_hit_NoDup. cbn.
    repeat (constructor; [cbn; intuition discriminate|]). constructor. }
  unfold all_dietary_restrictions. destruct conversation as [c|]; [|exact Hmessage].
  now apply add_missing_NoDup.
Qed.

End MessageExtras.

(** X17 on the menu: the Green Wrap, tagged "vegan" alone, is not
    recommended for "something vegan"; with it alone on the menu the
    answer is the notice. *)
Lemma vegan_request_is_vegetarian_too_witness :
  In "vegetarian"
     (RecommendationEngine.dietary
        (RecommendationEngine.extract_food_preferences_from_message "something vegan"))
  /\ RecommendationEngine.recommend None (Menu.session [Menu.vegan_wrap])
                                    "something vegan" 3
     = RecommendationEngine.NoMatch ["vegetarian"; "vegan"].
Proof.
  split.
  - apply (vegan_request_is_vegetarian_too "something vegan"). vm_compute. reflexivity.
  - vm_compute. reflexivity.
Defined.

(** X18 on "under $9.99": the hint is "under 9". *)
Lemma budget_hint_is_whole_number_witness :
  RecommendationEngine.budget
    (RecommendationEngine.extract_food_preferences_from_message "under $9.99")
  = Some (Under 9)
  /\ exists n, 0 <= n /\ (Under 9 = Under (float_of_Z n) \/ Under 9 = Around (float_of_Z n)).
Proof.
  split; [vm_compute; reflexivity|].
  apply (budget_hint_is_whole_number "under $9.99"). vm_compute. reflexivity.
Defined.

(* ================================================================= *)
(** ** Further properties of the score *)

Section ScoreExtras.
Import RecommendationEngine.

(** X21. The sub-scores that are integers keep to their range: the
    current-request score, the preference score and the mood score lie
    within [0, 100], whatever the number of matches and mismatches, and
    the dietary score is 0 or 100. *)
Theorem sub_scores_in_range (product : Product.t) (current_preferences : Preferences)
        (user_preferences user_moods dietary_restrictions : list string) :
  0 <= current_request_score product current_preferences <= 100
  /\ 0 <= preference_score product user_preferences <= 100
  /\ 0 <= mood_score product user_moods <= 100
  /\ (dietary_score product dietary_restrictions = 0
      \/ dietary_score product dietary_restrictions = 100).
Proof.
  split; [unfold current_request_score; lia|].
  split; [unfold preference_score; lia|].
  split; [unfold mood_score; lia|].
  induction dietary_restrictions as [|r rest IH]; cbn [dietary_score]; [now right|].
  destruct (mem r (or_nil (Product.allergens product))); [now left|].
  destruct (negb _ && _); [now left | exact IH].
Qed.

Lemma suitable_scores_full (product : Product.t) (labels : list string) :
  (forall r, In r labels -> suits_restriction product r = true) ->
  (forall r, In r labels -> ~ In r (or_nil (Product.allergens product))) ->
  dietary_score product labels = 100.
Proof.
  induction labels as [|r rest IH]; intros Hsuit Hallergen; cbn [dietary_score];
    [reflexivity|].
  assert (Hr : mem r (or_nil (Product.allergens product)) = false)
    by (apply mem_false_not_In, Hallergen; now left).
  rewrite Hr.
  assert (Hs := Hsuit r (or_introl eq_refl)). unfold suits_restriction in Hs.
  destruct (mem (lower r) (product_dietary_tags product)); cbn [negb andb].
  - apply IH; intros r' Hr'; [apply Hsuit | apply Hallergen]; now right.
  - cbn [negb andb] in Hs.
    destruct (any_in (dict_get dietary_exclusions r []) (product_text product)).
    + now destruct (mem r ["vegetarian"; "vegan"]).
    + apply IH; intros r' Hr'; [apply Hsuit | apply Hallergen]; now right.
Qed.

(** X22. On the primary path the dietary-compatibility score of every
    candidate is the full 100, as long as no restriction of the
    conversation is, letter for letter, one of the allergens of the
    product: whatever would bring the score to 0 through its text has
    been removed by the dietary filter before. *)
Theorem primary_candidates_score_full_compatibility
        (conversation : Conversation.t) (db : Session) (current_message : string)
        (limit : Z) (answer : list Candidate) (rec : Candidate) :
  recommend (Some conversation) db current_message limit = Primary answer ->
  In rec answer ->
  (forall r, In r (Conversation.dietary_restrictions conversation) ->
             ~ In r (or_nil (Product.allergens (product rec)))) ->
  dietary_score (product rec) (Conversation.dietary_restrictions conversation) = 100.
Proof.
  intros Hout Hin Hallergen.
  destruct (primary_complies _ _ _ _ _ _ Hout Hin) as [_ Hsuit].
  rewrite is_suitable_all in Hsuit.
  apply suitable_scores_full; [|exact Hallergen].
  intros r Hr. apply Hsuit. unfold all_dietary_restrictions.
  apply add_missing_In. now right.
Qed.

End ScoreExtras.

(** X22 on the menu: a vegetarian conversation asks for "a salad"; the
    Garden Bowl is the one candidate, with the full score. *)
Lemma primary_candidates_score_full_compatibility_witness :
  let conversation :=
    {| Conversation.conversation_id := "c-1";
       Conversation.user_preferences := [];
       Conversation.dietary_restrictions := ["vegetarian"];
       Conversation.budget_range := None;
       Conversation.mood_tags := [];
       Conversation.current_interest_score := 50 |} in
  let db := Menu.session [Menu.garden_bowl; Menu.classic_burger; Menu.plain_fries] in
  exists answer,
    RecommendationEngine.recommend (Some conversation) db "a salad" 3
    = RecommendationEngine.Primary answer
    /\ map RecommendationEngine.product answer = [Menu.garden_bowl]
    /\ forall rec, In rec answer ->
         RecommendationEngine.dietary_score (RecommendationEngine.product rec)
                                            ["vegetarian"] = 100.
Proof.
  cbv zeta.
  destruct (RecommendationEngine.recommend _ _ "a salad" 3) as [labels | answer | answer]
    eqn:Hout; try (vm_compute in Hout; discriminate Hout).
  exists answer. split; [reflexivity|]. split.
  - vm_compute in Hout. injection Hout as <-. reflexivity.
  - intros rec Hin.
    apply (primary_candidates_score_full_compatibility _ _ _ _ _ _ Hout Hin).
    intros r _ Hallergen.
    vm_compute in Hout. injection Hout as <-.
    destruct Hin as [<- | []]. destruct Hallergen.
Defined.

(* ================================================================= *)
(** ** Properties of [get_filtered_products] *)

Section BrowseExtras.
Import RecommendationEngine.

Variable query : option string -> option float -> option float -> list Product.t.
Variable category : option string.
Variable min_price max_price : option float.

(** X23. Browsing returns products of the catalogue query only.  Without
    a dietary and a mood filter it returns them all; when the dietary
    filter lists "vegetarian" or "vegan", blanks around the labels
    aside, every product returned carries that tag, in whatever case;
    and under a mood filter every product returned has one of the listed
    moods, so a product without mood tags is never returned. *)
Theorem browsing_keeps_to_the_filters (dietary_tags mood_tags : option string) :
  (forall p, In p (get_filtered_products query category min_price max_price
                                         dietary_tags mood_tags) ->
             In p (query category min_price max_price))
  /\ get_filtered_products query category min_price max_price None None
     = query category min_price max_price
  /\ (forall c tags label,
         dietary_tags = Some (String c tags) ->
         label = "vegetarian" \/ label = "vegan" ->
         In label (tag_list (String c tags)) ->
         forall p, In p (get_filtered_products query category min_price max_price
                                               dietary_tags mood_tags) ->
                   exists tag, In tag (or_nil (Product.dietary_tags p))
                               /\ lower tag = label)
  /\ (forall c moods,
         mood_tags = Some (String c moods) ->
         forall p, In p (get_filtered_products query category min_price max_price
                                               dietary_tags mood_tags) ->
                   exists mood, In mood (tag_list (String c moods))
                                /\ In mood (or_nil (Product.mood_tags p))).
Proof.
  assert (Hdiet : forall p,
             In p (match dietary_tags with
                   | None => query category min_price max_price
                   | Some EmptyString => query category min_price max_price
                   | Some tags => _strict_dietary_filter
                                    (query category min_price max_price) (tag_list tags)
                   end) ->
             In p (query category min_price max_price)
             /\ forall c tags, dietary_tags = Some (String c tags) ->
                               is_suitable p (tag_list (String c tags)) = true).
  { intros p. destruct dietary_tags as [[|c tags]|]; intros H.
    - split; [exact H | discriminate].
    - rewrite strict_filter_as_filter in H. apply filter_In in H.
      split; [apply H|]. intros c' tags' Heq. injection Heq as <- <-. apply H.
    - split; [exact H | discriminate]. }
  assert (Hmood : forall p,
             In p (get_filtered_products query category min_price max_price
                                         dietary_tags mood_tags) ->
             In p (match dietary_tags with
                   | None => query category min_price max_price
                   | Some EmptyString => query category min_price max_price
                   | Some tags => _strict_dietary_filter
                                    (query category min_price max_price) (tag_list tags)
                   end)
             /\ forall c moods, mood_tags = Some (String c moods) ->
                  exists mood, In mood (tag_list (String c moods))
                               /\ In mood (or_nil (Product.mood_tags p))).
  { intros p. unfold get_filtered_products.
    destruct mood_tags as [[|c moods]|]; intros H.
    - split; [exact H | discriminate].
    - apply filter_In in H. destruct H as [H Hany]. split; [exact H|].
      intros c' moods' Heq. injection Heq as <- <-.
      apply existsb_exists in Hany. destruct Hany as [mood [Hlisted Hhas]].
      exists mood. split; [exact Hlisted | now apply mem_In].
    - split; [exact H | discriminate]. }
  split; [|split; [|split]].
  - intros p Hp. apply Hdiet, Hmood, Hp.
  - reflexivity.
  - intros c tags label Hgiven Hlabel Hlisted p Hp.
    destruct (Hdiet p (proj1 (Hmood p Hp))) as [_ Hsuit].
    specialize (Hsuit c tags Hgiven). rewrite is_suitable_all in Hsuit.
    specialize (Hsuit label Hlisted).
    destruct (mem label (product_dietary_tags p)) eqn:Htag.
    + apply mem_In in Htag. unfold product_dietary_tags in Htag.
      apply in_map_iff in Htag. destruct Htag as [tag [Hlow Htag]]. now exists tag.
    + rewrite (untagged_strict_fails _ label Hlabel Htag) in Hsuit. discriminate.
  - intros c moods Hgiven p Hp. exact (proj2 (Hmood p Hp) c moods Hgiven).
Qed.

End BrowseExtras.

(** X23 on the menu: browsing with the dietary filter " vegan , keto"
    returns the Beefless Burger, tagged "Vegan", and the Green Wrap. *)
Lemma browsing_keeps_to_the_filters_witness :
  let query := fun (_ : option string) (_ _ : option float) =>
                 [Menu.beefless_burger; Menu.garden_bowl; Menu.vegan_wrap;
                  Menu.classic_burger] in
  RecommendationEngine.get_filtered_products query None None None
                                             (Some " vegan , keto") None
  = [Menu.beefless_burger; Menu.vegan_wrap]
  /\ forall p,
      In p (RecommendationEngine.get_filtered_products query None None None
                                                       (Some " vegan , keto") None) ->
      exists tag, In tag (or_nil (Product.dietary_tags p)) /\ lower tag = "vegan".
Proof.
  cbv zeta. split; [vm_compute; reflexivity|].
  refine (proj1 (proj2 (proj2 (browsing_keeps_to_the_filters
                                 (fun _ _ _ => [Menu.beefless_burger; Menu.garden_bowl;
                                                Menu.vegan_wrap; Menu.classic_burger])
                                 None None None (Some " vegan , keto") None)))
                " "%char "vegan , keto" "vegan" eq_refl (or_intror eq_refl) _).
  vm_compute. now left.
Defined.

(* ================================================================= *)
(** ** Across the two services *)

Lemma lower_ascii_twice (c : ascii) : lower_ascii (lower_ascii c) = lower_ascii c.
Proof.
  destruct c as [[] [] [] [] [] [] [] []]; reflexivity.
Qed.

Lemma lower_twice (s : string) : lower (lower s) = lower s.
Proof.
  induction s as [|c s IH]; cbn [lower]; [reflexivity|].
  now rewrite lower_ascii_twice, IH.
Qed.

Lemma prefix_one (a b : ascii) (t : string) :
  prefix (String a EmptyString) (String b t) = if ascii_dec a b then true else false.
Proof.
  cbn [prefix]. destruct (ascii_dec a b); [now destruct t | reflexivity].
Qed.

Lemma question_mark_lower (s : string) : contains "?" (lower s) = contains "?" s.
Proof.
  induction s as [|c s IH]; [reflexivity|].
  cbn [lower]. unfold contains; fold contains. rewrite IH, !prefix_one.
  assert (Hhead : (if ascii_dec "?" (lower_ascii c) then true else false)
                  = (if ascii_dec "?" c then true else false))
    by (destruct c as [[] [] [] [] [] [] [] []]; reflexivity).
  now rewrite Hhead.
Qed.

Section AcrossServices.
Import RecommendationEngine.

(** X24. What the two services read from a message does not depend on
    the case of its letters: the raw delta with its factor texts, the
    preferences to record and the preferences of the request are those
    of the message in lower case. *)
Theorem reading_ignores_case (message : string) :
  ConversationService._calculate_interest_score_change (lower message)
  = ConversationService._calculate_interest_score_change message
  /\ ConversationService._extract_preferences (lower message)
     = ConversationService._extract_preferences message
  /\ extract_food_preferences_from_message (lower message)
     = extract_food_preferences_from_message message.
Proof.
  unfold ConversationService._calculate_interest_score_change,
    ConversationService._extract_preferences, extract_food_preferences_from_message.
  rewrite lower_twice, question_mark_lower. repeat split.
Qed.

(** X25. A restriction the conversation has recorded binds every later
    answer, whether the message repeats it or not: each candidate of the
    primary and of the fallback path suits it; for "vegetarian" and
    "vegan" this means that the candidate carries the tag. *)
Theorem recorded_restriction_binds (conversation : Conversation.t) (db : Session)
        (current_message : string) (limit : Z) (answer : list Candidate)
        (rec : Candidate) (restriction : string) :
  In restriction (Conversation.dietary_restrictions conversation) ->
  (recommend (Some conversation) db current_message limit = Primary answer
   \/ recommend (Some conversation) db current_message limit = Fallback answer) ->
  In rec answer ->
  suits_restriction (product rec) restriction = true
  /\ (restriction = "vegetarian" \/ restriction = "vegan" ->
      exists tag, In tag (or_nil (Product.dietary_tags (product rec)))
                  /\ lower tag = restriction).
Proof.
  intros Hrecorded Hout Hin.
  assert (Hsuit : is_suitable (product rec)
                    (all_dietary_restrictions
                       (extract_food_preferences_from_message current_message)
                       (Some conversation)) = true).
  { destruct Hout as [Hout | Hout].
    - exact (proj2 (primary_complies _ _ _ _ _ _ Hout Hin)).
    - exact (proj2 (fallback_complies _ _ _ _ _ _ Hout Hin)). }
  rewrite is_suitable_all in Hsuit.
  assert (Hone : suits_restriction (product rec) restriction = true).
  { apply Hsuit. unfold all_dietary_restrictions. apply add_missing_In. now right. }
  split; [exact Hone|]. intros Hstrict.
  destruct (mem restriction (product_dietary_tags (product rec))) eqn:Htag.
  - apply mem_In in Htag. unfold product_dietary_tags in Htag.
    apply in_map_iff in Htag. destruct Htag as [tag [Hlow Htag]]. now exists tag.
  - rewrite (untagged_strict_fails _ restriction Hstrict Htag) in Hone. discriminate.
Qed.

Lemma ranked_nil (conversation : option Conversation.t)
      (current_preferences : Preferences) (restrictions : list string) (limit : Z) :
  ranked [] conversation current_preferences restrictions limit = [].
Proof.
  unfold ranked.
  assert (Hcat : filter_by_category current_preferences [] = [])
    by (unfold filter_by_category; now destruct (categories current_preferences)).
  assert (Hbudget : filter_by_budget current_preferences [] = [])
    by (unfold filter_by_budget;
        now destruct (budget current_preferences) as [[X | X |]|]).
  rewrite Hcat, Hbudget. cbn [map sort_desc fold_right].
  unfold take. destruct (0 <=? limit); apply firstn_nil.
Qed.

(** X26. On an empty catalogue, whose queries return nothing, the answer
    is empty when no restriction is in force and the notice otherwise. *)
Theorem empty_catalogue_answer (conversation : option Conversation.t) (db : Session)
        (current_message : string) (limit : Z) :
  all_products db = [] ->
  (forall category, products_like db category = []) ->
  get_personalized_recommendations conversation db current_message limit
  = match all_dietary_restrictions
            (extract_food_preferences_from_message current_message) conversation with
    | [] => []
    | restrictions => [no_match restrictions]
    end.
Proof.
  intros Hall Hlike. unfold get_personalized_recommendations, recommend. cbv zeta.
  rewrite Hall.
  destruct (all_dietary_restrictions _ conversation) as [|r rest]; [|reflexivity].
  rewrite ranked_nil. cbn [fallback_wanted].
  destruct (categories _) as [|category others]; [reflexivity|].
  unfold fallback. rewrite Hlike. reflexivity.
Qed.

End AcrossServices.

(** X25 on the menu: a vegetarian conversation asks for "a burger"; what
    is answered carries the tag. *)
Lemma recorded_restriction_binds_witness :
  let conversation :=
    {| Conversation.conversation_id := "c-1";
       Conversation.user_preferences := [];
       Conversation.dietary_restrictions := ["vegetarian"];
       Conversation.budget_range := None;
       Conversation.mood_tags := [];
       Conversation.current_interest_score := 50 |} in
  let db := Menu.session [Menu.classic_burger; Menu.beefless_burger; Menu.garden_bowl] in
  exists answer,
    RecommendationEngine.recommend (Some conversation) db "a burger" 3
    = RecommendationEngine.Primary answer
    /\ map RecommendationEngine.product answer = [Menu.beefless_burger]
    /\ forall rec, In rec answer ->
         exists tag,
           In tag (or_nil (Product.dietary_tags (RecommendationEngine.product rec)))
           /\ lower tag = "vegetarian".
Proof.
  cbv zeta.
  destruct (RecommendationEngine.recommend _ _ "a burger" 3) as [labels | answer | answer]
    eqn:Hout; try (vm_compute in Hout; discriminate Hout).
  exists answer. split; [reflexivity|]. split.
  - vm_compute in Hout. injection Hout as <-. reflexivity.
  - intros rec Hin.
    refine (proj2 (recorded_restriction_binds _ _ _ _ _ _ "vegetarian" _
                     (or_introl Hout) Hin) (or_introl eq_refl)).
    now left.
Defined.

(** X26 on an empty menu: "a vegan burger" is answered with the notice,
    "a burger" with nothing. *)
Lemma empty_catalogue_answer_witness :
  map RecommendationEngine.Recommendation.product_id
      (RecommendationEngine.get_personalized_recommendations
         None (Menu.session []) "a vegan burger" 3) = ["no_match"]
  /\ RecommendationEngine.get_personalized_recommendations
       None (Menu.session []) "a burger" 3 = [].
Proof.
  split.
  - rewrite (empty_catalogue_answer None (Menu.session []) "a vegan burger" 3 eq_refl
               (fun _ => eq_refl)).
    vm_compute. reflexivity.
  - rewrite (empty_catalogue_answer None (Menu.session []) "a burger" 3 eq_refl
               (fun _ => eq_refl)).
    vm_compute. reflexivity.
Defined.

(** X5 on the menu: "keto" and "vegan" in either order, and with a label
    repeated, filter alike. *)
Lemma strict_filter_composes_witness :
  let products := [Menu.beefless_burger; Menu.plain_fries; Menu.vegan_wrap] in
  RecommendationEngine._strict_dietary_filter products ["keto"; "vegan"]
  = RecommendationEngine._strict_dietary_filter products ["vegan"; "keto"; "vegan"]
  /\ RecommendationEngine._strict_dietary_filter products ["keto"; "vegan"]
     = [Menu.beefless_burger; Menu.vegan_wrap].
Proof.
  cbv zeta. split; [|vm_compute; reflexivity].
  apply (proj2 (proj2 (strict_filter_composes
                         [Menu.beefless_burger; Menu.plain_fries; Menu.vegan_wrap]
                         ["keto"; "vegan"] ["vegan"; "keto"; "vegan"]))).
  intros r. cbn. tauto.
Defined.

(** X8 on the menu: "a pizza" names a category no product is in; the
    three products stay and are ranked. *)
Lemma category_never_empties_witness :
  let prefs := RecommendationEngine.extract_food_preferences_from_message "a pizza" in
  RecommendationEngine.categories prefs = ["pizza"]
  /\ RecommendationEngine.filter_by_category
       prefs [Menu.garden_bowl; Menu.classic_burger; Menu.plain_fries]
     = [Menu.garden_bowl; Menu.classic_burger; Menu.plain_fries]
  /\ RecommendationEngine.ranked
       [Menu.garden_bowl; Menu.classic_burger; Menu.plain_fries] None prefs [] 3 <> [].
Proof.
  cbv zeta. split; [vm_compute; reflexivity|]. split; [vm_compute; reflexivity|].
  apply (proj2 (category_never_empties
                  None (RecommendationEngine.extract_food_preferences_from_message
                          "a pizza") []
                  [Menu.garden_bowl; Menu.classic_burger; Menu.plain_fries] 3)).
  - vm_compute. reflexivity.
  - lia.
  - discriminate.
Defined.

(** X14 on the menu: the Beefless Burger, asked for as "a vegan burger"
    by a conversation that likes burgers, has four reasons to show and
    shows three. *)
Lemma at_most_three_reasons_witness :
  let conversation :=
    {| Conversation.conversation_id := "c-1";
       Conversation.user_preferences := ["burger"];
       Conversation.dietary_restrictions := [];
       Conversation.budget_range := None;
       Conversation.mood_tags := [];
       Conversation.current_interest_score := 50 |} in
  let db := Menu.session [Menu.beefless_burger; Menu.classic_burger] in
  let answer :=
    RecommendationEngine.get_personalized_recommendations
      (Some conversation) db "a vegan burger" 3 in
  map RecommendationEngine.Recommendation.reasons answer
  = [[RecommendationEngine.PerfectMatch "burgers";
      RecommendationEngine.MeetsRequirements "vegetarian";
      RecommendationEngine.MeetsRequirements "vegan"]]
  /\ Forall (fun entry =>
               (List.length (RecommendationEngine.Recommendation.reasons entry) <= 3)%nat)
            answer.
Proof.
  cbv zeta. split; [vm_compute; reflexivity|].
  apply Forall_forall. intros entry Hin.
  exact (at_most_three_reasons _ _ _ _ entry Hin).
Defined.

(* ================================================================= *)
(** ** Message processing as the source has it *)

Section MessageProcessing.
Import ConversationService.

(** C1 at any message. Without a stored row the function raises
    [TypeError] where it builds the conversation with the score 0, and
    adds no row; with a stored row it raises [AttributeError] where it
    reads the score it would clamp, and leaves the row as it was.  No
    conversation is created at 0 and no score is set to the clamped sum:
    the service names the score [interest_score], the class declares
    [current_interest_score]. *)
Theorem process_message_never_scores :
  (forall message,
      process_message message None
      = (None,
         Raised (TypeError
                   "'interest_score' is an invalid keyword argument for Conversation")))
  /\ (forall message conversation,
         process_message message (Some conversation)
         = (Some conversation,
            Raised (AttributeError
                      "'Conversation' object has no attribute 'interest_score'")))
  /\ (forall message row response,
         snd (process_message message row) <> Returned response).
Proof.
  assert (Hrow : forall message conversation,
             process_message message (Some conversation)
             = (Some conversation,
                Raised (AttributeError
                          "'Conversation' object has no attribute 'interest_score'"))).
  { intros message conversation. unfold process_message.
    now destruct (_calculate_interest_score_change message). }
  split; [reflexivity|]. split; [exact Hrow|].
  intros message [conversation|] response.
  - rewrite Hrow. discriminate.
  - discriminate.
Qed.


End MessageProcessing.


(** C9 at a stored row. The conversation likes spicy food; the message
    "Spicy vegan comfort food, please" mentions "spicy" and "vegan".  The
    call raises at the score, before the loops that merge, and the row
    keeps its list: "vegan" is not recorded. *)
Lemma process_message_never_merges :
  let message := "Spicy vegan comfort food, please" in
  ConversationService.specific_prefs (ConversationService._extract_preferences message)
  = ["spicy"; "vegan"]
  /\ Conversation.user_preferences Menu.spicy_vegan_row = ["spicy"]
  /\ ConversationService.process_message message (Some Menu.spicy_vegan_row)
     = (Some Menu.spicy_vegan_row,
        Raised (AttributeError
                  "'Conversation' object has no attribute 'interest_score'")).
Proof.
  cbv zeta. split; [vm_compute; reflexivity|]. split; reflexivity.
Qed.

(** C10, as stated, fails at "a burger around $10 but under $20". The
    message contains the phrase "around $10"; the pattern for "under" is
    tried first and gives the hint "under 20"; the Deluxe Burger, which
    costs 15, is returned on the primary path, and 15 is not within 8 and
    12. *)
Lemma around_phrase_does_not_bound_prices :
  let db := Menu.session [Menu.deluxe_burger] in
  let message := "a burger around $10 but under $20" in
  contains "around $10" (lower message) = true
  /\ RecommendationEngine.budget
       (RecommendationEngine.extract_food_preferences_from_message message)
     = Some (Under 20)
  /\ (exists answer,
         RecommendationEngine.recommend None db message 3
         = RecommendationEngine.Primary answer)
  /\ map (fun entry => (RecommendationEngine.Recommendation.product_id entry,
                        RecommendationEngine.Recommendation.price entry))
         (RecommendationEngine.get_personalized_recommendations None db message 3)
     = [("BR004", Float 15)]
  /\ ((10 * 0.8 <=? 15) && (15 <=? 10 * 1.2))%float = false.
Proof.
  cbv zeta. split; [vm_compute; reflexivity|]. split; [vm_compute; reflexivity|].
  split; [eexists; vm_compute; reflexivity|].
  split; vm_compute; reflexivity.
Qed.
